(** * Payments API: a shallow embedding of [payments_api/__init__.py]

    The module keeps a process-wide list [DATA_CACHE] of decoded JSON
    values, filters and paginates it on [GET /payments], looks a record up
    on [GET /payments/{txn_id}], advances [pending] records at random while
    reading them, and starts a background thread that rewrites the backing
    file whenever a status changed.

    Python objects are shared: the filtered lists of [get_payments] hold the
    very dictionaries of [DATA_CACHE].  A reference to a record is therefore
    its position in [DATA_CACHE] (the handlers never insert or remove),
    and every mutation goes through the one store.  Exceptions do not roll
    the store back, so a computation returns its outcome together with the
    world it leaves behind. *)

From Stdlib Require Import ZArith Floats Ascii.
From stdpp Require Import gmap strings list fin_maps sorting.

Set Warnings "-register-all".
Open Scope string_scope.

(** ** Decoded JSON values *)

(** What [json.loads] can return: [None], [bool], [int], [float], [str],
    [list] and [dict] with string keys. *)
Inductive value : Type :=
  | VNone
  | VBool (b : bool)
  | VInt (z : Z)
  | VFloat (f : float)
  | VStr (s : string)
  | VList (l : list value)
  | VDict (d : gmap string value).

(** The exceptions the module can raise or let escape: its own, and the
    ones of the libraries it calls ([json.loads] raises [JSONDecodeError]
    on text that is not JSON, but also [RecursionError] on text nested too
    deep and a plain [ValueError] on an integer of too many digits;
    reading a gzip file can raise [EOFError], [BadGzipFile] or [OSError];
    [JSONResponse] raises [ValueError] on a NaN or an infinity). *)
Inductive exn : Type :=
  | KeyError (key : string)
  | TypeError
  | AttributeError (attr : string)
  | IndexError
  | FileNotFoundError
  | HTTPException (status_code : Z) (detail : string)
  | DanglingReference
  | JSONDecodeError
  | ValueError
  | RecursionError
  | EOFError
  | BadGzipFile
  | OSError.

Inductive outcome (A : Type) : Type :=
  | Returned (a : A)
  | Raised (e : exn).
Arguments Returned {A} a.
Arguments Raised {A} e.

(** *** Python's [==] on decoded values *)

(** [float == int] compares the exact mathematical values. *)
Definition float_eq_Z (f : float) (z : Z) : bool :=
  match Prim2SF f with
  | S754_zero _ => Z.eqb z 0
  | S754_finite s m e =>
      let sm := if s then Z.neg m else Z.pos m in
      if Z.leb 0 e then Z.eqb z (sm * 2 ^ e) else Z.eqb (z * 2 ^ (- e)) sm
  | S754_infinity _ | S754_nan => false
  end.

Definition Z_of_bool (b : bool) : Z := if b then 1%Z else 0%Z.

(** [bool] is a subtype of [int], [int] and [float] compare by value, a NaN
    equals nothing, strings compare by content, lists element by element,
    dictionaries key by key.  (Inside a container CPython first tries
    identity; the two differ only for a NaN stored in a container.) *)
Fixpoint py_eq (a b : value) {struct a} : bool :=
  match a, b with
  | VNone, VNone => true
  | VBool x, VBool y => Bool.eqb x y
  | VBool x, VInt y => Z.eqb (Z_of_bool x) y
  | VInt x, VBool y => Z.eqb x (Z_of_bool y)
  | VInt x, VInt y => Z.eqb x y
  | VBool x, VFloat y => float_eq_Z y (Z_of_bool x)
  | VFloat x, VBool y => float_eq_Z x (Z_of_bool y)
  | VInt x, VFloat y => float_eq_Z y x
  | VFloat x, VInt y => float_eq_Z x y
  | VFloat x, VFloat y => PrimFloat.eqb x y
  | VStr x, VStr y => String.eqb x y
  | VList xs, VList ys =>
      (fix go (xs ys : list value) : bool :=
         match xs, ys with
         | [], [] => true
         | x :: xs', y :: ys' => py_eq x y && go xs' ys'
         | _, _ => false
         end) xs ys
  | VDict d, VDict e =>
      Nat.eqb (size d) (size e) &&
      map_fold (fun k x acc =>
                  acc && match e !! k with
                         | Some y => py_eq x y
                         | None => false
                         end) true d
  | _, _ => false
  end.

(** *** String methods *)

(** Strings are sequences of code points below 256.  [str.lower] maps
    [A-Z] and the Latin-1 capitals (0xC0-0xDE without the multiplication
    sign 0xD7) to the letter 32 places further. *)
Definition lower_char (c : ascii) : ascii :=
  let n := nat_of_ascii c in
  if ((65 <=? n) && (n <=? 90))%nat then ascii_of_nat (n + 32)
  else if ((192 <=? n) && (n <=? 222) && negb (n =? 215))%nat
       then ascii_of_nat (n + 32)
  else c.

Fixpoint lower (s : string) : string :=
  match s with
  | EmptyString => EmptyString
  | String c s' => String (lower_char c) (lower s')
  end.

(** [str.isspace] on one code point below 256. *)
Definition is_space (c : ascii) : bool :=
  let n := nat_of_ascii c in
  ((9 <=? n) && (n <=? 13) || (28 <=? n) && (n <=? 32)
   || (n =? 133) || (n =? 160))%nat.

Fixpoint lstrip (s : string) : string :=
  match s with
  | EmptyString => EmptyString
  | String c s' => if is_space c then lstrip s' else s
  end.

(** Drops trailing white space: a character stays when something that is
    not white space follows it or it is itself not white space. *)
Fixpoint rstrip (s : string) : string :=
  match s with
  | EmptyString => EmptyString
  | String c s' =>
      match rstrip s' with
      | EmptyString => if is_space c then EmptyString else String c EmptyString
      | r => String c r
      end
  end.

Definition strip (s : string) : string := rstrip (lstrip s).

(** [v.startswith(p)] and [v.lower()] exist on [str] only. *)
Definition startswith (v : value) (p : string) : outcome bool :=
  match v with
  | VStr s => Returned (String.prefix p s)
  | _ => Raised (AttributeError "startswith")
  end.

Definition lower_of (v : value) : outcome string :=
  match v with
  | VStr s => Returned (lower s)
  | _ => Raised (AttributeError "lower")
  end.

(** [v[key]] for a string key. *)
Definition subscript (v : value) (key : string) : outcome value :=
  match v with
  | VDict d =>
      match d !! key with
      | Some x => Returned x
      | None => Raised (KeyError key)
      end
  | _ => Raised TypeError
  end.

(** [v[key] = x] for a string key. *)
Definition store_item (v : value) (key : string) (x : value) : outcome value :=
  match v with
  | VDict d => Returned (VDict (<[key := x]> d))
  | _ => Raised TypeError
  end.

(** Truth value of an [Optional[str]] argument: [None] and [""] are false. *)
Definition truthy (o : option string) : bool :=
  match o with
  | Some (String _ _) => true
  | _ => false
  end.

Definition STATUS_TRANSITIONS : gmap string (list string) :=
  {[ "pending" := ["approved"; "declined"] ]}.

(** ** The world a handler runs in *)

(** The answers of the outside world, numbered by consultation:
    [random.random()], the index [random.choice] draws (reduced modulo the
    length of the sequence), and [datetime.utcnow().isoformat()]; and the
    exception, if any, that [JSONResponse(content)] raises while it
    serialises [content] (it does so when it is built, with
    [allow_nan=False]). *)
Record Oracle : Type := mkOracle {
  random_at : nat -> float;
  randbelow_at : nat -> nat;
  utcnow_at : nat -> string;
  json_response_error : value -> option exn
}.

(** A thread running [_write]: not yet at [open], inside the [for] loop at
    position [i] of [DATA_CACHE] with the lines [out] handed to the file
    object so far, or past the [with] block. *)
Inductive wstate : Type :=
  | WReady
  | WOpen (i : nat) (out : list string)
  | WClosed (out : list string).

(** What a run leaves on record (kept for the statements only): calls of
    [maybe_update_status] with the record they received, thread starts, and
    the two [print]s of [load_data_once]. *)
Inductive event : Type :=
  | EvSimulate (ref : nat)
  | EvThreadStart
  | EvPrintSkipping (line : string)
  | EvPrintLoaded (n : nat).

Record World : Type := mkWorld {
  DATA_CACHE : list value;
  ticks : nat;
  threads : list wstate;
  trace : list event
}.

Definition set_cache (c : list value) (w : World) : World :=
  mkWorld c (ticks w) (threads w) (trace w).
Definition tick (w : World) : World :=
  mkWorld (DATA_CACHE w) (S (ticks w)) (threads w) (trace w).
Definition set_threads (t : list wstate) (w : World) : World :=
  mkWorld (DATA_CACHE w) (ticks w) t (trace w).
Definition emit (e : event) (w : World) : World :=
  mkWorld (DATA_CACHE w) (ticks w) (threads w) (trace w ++ [e]).

(** A computation: an outcome and the world left behind, also when it
    raises. *)
Definition M (A : Type) : Type := World -> outcome A * World.

Definition ret {A} (a : A) : M A := fun w => (Returned a, w).
Definition raise {A} (e : exn) : M A := fun w => (Raised e, w).
Definition bind {A B} (m : M A) (k : A -> M B) : M B :=
  fun w => match m w with
           | (Returned a, w') => k a w'
           | (Raised e, w') => (Raised e, w')
           end.
Definition lift {A} (o : outcome A) : M A := fun w => (o, w).
Definition modify (f : World -> World) : M unit := fun w => (Returned tt, f w).

Declare Scope py_scope.
Delimit Scope py_scope with py.
Notation "x <- m ;; k" := (bind m (fun x => k))
  (at level 100, m at next level, right associativity) : py_scope.
Notation "m ;;; k" := (bind m (fun _ => k))
  (at level 100, right associativity) : py_scope.
Open Scope py_scope.

(** Reading and writing a record through its reference. *)
Definition deref (ref : nat) : M value :=
  fun w => match DATA_CACHE w !! ref with
           | Some v => (Returned v, w)
           | None => (Raised DanglingReference, w)
           end.

Definition getitem (ref : nat) (key : string) : M value :=
  v <- deref ref ;; lift (subscript v key).

Definition setitem (ref : nat) (key : string) (x : value) : M unit :=
  v <- deref ref ;;
  v' <- lift (store_item v key x) ;;
  modify (fun w => set_cache (<[ref := v']> (DATA_CACHE w)) w).

(** The threshold [0.3] is the double nearest to three tenths. *)
Definition threshold : float := 0x1.3333333333333p-2%float.

Section Handlers.

Variable O : Oracle.

Definition random_random : M float :=
  fun w => (Returned (random_at O (ticks w)), tick w).

Definition random_choice (seq : list string) : M string :=
  match seq with
  | [] => raise IndexError
  | _ => fun w =>
           match seq !! (randbelow_at O (ticks w) mod length seq)%nat with
           | Some x => (Returned x, tick w)
           | None => (Raised IndexError, tick w)
           end
  end.

Definition utcnow_isoformat : M string :=
  fun w => (Returned (utcnow_at O (ticks w)), tick w).

Definition transitions_of (key : string) : M (list string) :=
  match STATUS_TRANSITIONS !! key with
  | Some l => ret l
  | None => raise (KeyError key)
  end.

(** [maybe_update_status(record)]: the right operand of [and] is evaluated
    only when the status is ["pending"]. *)
Definition maybe_update_status (record : nat) : M nat :=
  modify (emit (EvSimulate record)) ;;;
  st <- getitem record "status" ;;
  go <- (if py_eq st (VStr "pending")
         then r <- random_random ;; ret (PrimFloat.ltb r threshold)
         else ret false) ;;
  (if go : bool
   then dests <- transitions_of "pending" ;;
        new <- random_choice dests ;;
        setitem record "status" (VStr new) ;;;
        now <- utcnow_isoformat ;;
        setitem record "status_updated_at" (VStr (now ++ "Z"))
   else ret tt) ;;;
  ret record.

(** [save_data_async()]: every call starts one more thread on [_write]. *)
Definition save_data_async : M unit :=
  modify (fun w => emit EvThreadStart (set_threads (threads w ++ [WReady]) w)).

(** A list comprehension [[p for p in data if cond(p)]]. *)
Fixpoint comprehension (cond : nat -> M bool) (data : list nat)
  : M (list nat) :=
  match data with
  | [] => ret []
  | p :: rest =>
      b <- cond p ;;
      kept <- comprehension cond rest ;;
      ret (if b : bool then p :: kept else kept)
  end.

Definition date_cond (date : string) (p : nat) : M bool :=
  x <- getitem p "processing_date" ;; lift (startswith x date).

Definition lower_cond (key arg : string) (p : nat) : M bool :=
  x <- getitem p key ;;
  l <- lift (lower_of x) ;;
  ret (String.eqb l (lower arg)).

Definition filter_by (arg : option string) (cond : string -> nat -> M bool)
    (data : list nat) : M (list nat) :=
  match arg with
  | Some s => if truthy arg then comprehension (cond s) data else ret data
  | None => ret data
  end.

(** The three [if ...: data = [...]] statements of [get_payments]. *)
Definition filtered (date psp_name status : option string) : M (list nat) :=
  fun w =>
    (data <- filter_by date date_cond (seq 0 (length (DATA_CACHE w))) ;;
     data <- filter_by psp_name (lower_cond "psp_name") data ;;
     filter_by status (lower_cond "status") data) w.

(** The [for record in data] loop of [get_payments]. *)
Fixpoint update_loop (data : list nat) (updated_any : bool) : M bool :=
  match data with
  | [] => ret updated_any
  | record :: rest =>
      old_status <- getitem record "status" ;;
      maybe_update_status record ;;;
      st <- getitem record "status" ;;
      update_loop rest (if py_eq st old_status then updated_any else true)
  end.

(** [data[start:stop]] for integers of either sign. *)
Definition slice_bound (n i : Z) : Z :=
  if (i <? 0)%Z then Z.max 0 (i + n) else Z.min i n.

Definition py_slice {A} (l : list A) (start stop : Z) : list A :=
  let n := Z.of_nat (length l) in
  let s := slice_bound n start in
  let e := slice_bound n stop in
  take (Z.to_nat (e - s)) (drop (Z.to_nat s) l).

Fixpoint deref_all (refs : list nat) : M (list value) :=
  match refs with
  | [] => ret []
  | r :: rest => v <- deref r ;; vs <- deref_all rest ;; ret (v :: vs)
  end.

Definition opt_str (o : option string) : value :=
  match o with
  | Some s => VStr s
  | None => VNone
  end.

(** [JSONResponse(content)]: the response carries the content, unless
    serialising it raises. *)
Definition JSONResponse (content : value) : M value :=
  match json_response_error O content with
  | Some e => raise e
  | None => ret content
  end.

(** The content handed to [JSONResponse]. *)
Definition page_content (date : option string) (page limit : Z)
    (records : list value) : value :=
  VDict (<["date" := opt_str date]>
        (<["page" := VInt page]>
        (<["limit" := VInt limit]>
        (<["count" := VInt (Z.of_nat (length records))]>
        (<["data" := VList records]> ∅))))).

(** [get_payments(date, page, limit, psp_name, status)]. *)
Definition get_payments (date : option string) (page limit : Z)
    (psp_name status : option string) : M value :=
  data <- filtered date psp_name status ;;
  updated_any <- update_loop data false ;;
  (if updated_any : bool then save_data_async else ret tt) ;;;
  let page_data := py_slice data ((page - 1) * limit) (page * limit) in
  match page_data with
  | [] => raise (HTTPException 404 "No more records")
  | _ => records <- deref_all page_data ;;
         JSONResponse (page_content date page limit records)
  end.

(** The [for record in DATA_CACHE] loop of [get_payment]. *)
Fixpoint find_loop (txn_id : string) (refs : list nat) : M nat :=
  match refs with
  | [] => raise (HTTPException 404 "Transaction not found")
  | record :: rest =>
      i <- getitem record "id" ;;
      if py_eq i (VStr txn_id)
      then old <- getitem record "status" ;;
           maybe_update_status record ;;;
           st <- getitem record "status" ;;
           (if py_eq st old then ret tt else save_data_async) ;;;
           ret record
      else find_loop txn_id rest
  end.

(** [get_payment(txn_id)] returns the record object itself. *)
Definition get_payment (txn_id : string) : M nat :=
  fun w => find_loop txn_id (seq 0 (length (DATA_CACHE w))) w.

End Handlers.

(** ** Loading and writing the backing file *)

(** The line feed written after every record. *)
Definition newline : string := String (ascii_of_nat 10) EmptyString.

(** The file is seen through its codec.  Reading it with
    [gzip.open(..., "rt")] and [for line in f] yields text lines and then
    either ends or raises: [EOFError] on a gzip stream that stops short,
    [BadGzipFile] or [OSError] on other damage. *)
Record text_file : Type := mkFile {
  lines_read : list string;
  read_error : option exn
}.

(** A file that reads as these lines and then ends. *)
Definition whole_file (lines : list string) : text_file := mkFile lines None.

(** [json.loads] and [json.dumps] are the library's.  [json.loads] returns
    a value or raises; of its exceptions the loader catches
    [JSONDecodeError] only. *)
Section Codec.

Variable json_loads : string -> outcome value.
Variable json_dumps : value -> string.

(** The body of [for line in f]. *)
Fixpoint load_lines (lines : list string) : M unit :=
  match lines with
  | [] => ret tt
  | raw :: rest =>
      let line := strip raw in
      (match line with
       | EmptyString => ret tt
       | _ =>
           match json_loads line with
           | Returned v => modify (fun w => set_cache (DATA_CACHE w ++ [v]) w)
           | Raised JSONDecodeError => modify (emit (EvPrintSkipping line))
           | Raised e => raise e
           end
       end) ;;;
      load_lines rest
  end.

(** [load_data_once()], run on the file as it reads; [None] when
    [FILE_PATH.exists()] is false. *)
Definition load_data_once (file : option text_file) : M unit :=
  modify (set_cache []) ;;;
  match file with
  | None => raise FileNotFoundError
  | Some f =>
      load_lines (lines_read f) ;;;
      (match read_error f with
       | Some e => raise e
       | None => ret tt
       end) ;;;
      (fun w => modify (emit (EvPrintLoaded (length (DATA_CACHE w)))) w)
  end.

(** One step of a thread running [_write] against the live [DATA_CACHE]:
    [open(FILE_PATH, "wt")] empties the file; each turn of the loop hands
    one more line to the file object; leaving the loop closes it, which
    is when the file object flushes what it still holds. *)
Definition write_step (cache : list value) (t : wstate) : wstate :=
  match t with
  | WReady => WOpen 0 []
  | WOpen i out =>
      match cache !! i with
      | Some record => WOpen (S i) (out ++ [json_dumps record ++ newline])
      | None => WClosed out
      end
  | WClosed out => WClosed out
  end.

(** The scheduler lets thread [tid] take one step. *)
Definition thread_step (tid : nat) (w : World) : World :=
  match threads w !! tid with
  | Some t => set_threads (<[tid := write_step (DATA_CACHE w) t]> (threads w)) w
  | None => w
  end.

(** What a reader may find in the file when [t] is the only thread that
    has touched it since it was [old].  Before the [open] it is [old].
    The [open] empties it, and the lines handed to the file object pass
    through the buffers of the text layer, of gzip and of the binary file,
    which are flushed when full and when the file is closed.  So between
    the [open] and the close the file is empty, and then reads as no line
    at all, or holds the beginning of a gzip stream, and then reads as
    some of the lines handed over so far, from the first on, followed by
    an exception.  After the close it reads as all the lines handed
    over. *)
Definition left_on_disk (old : option text_file) (t : wstate)
    (file : option text_file) : Prop :=
  match t with
  | WReady => file = old
  | WOpen _ out =>
      ∃ f, file = Some f ∧ lines_read f `prefix_of` out ∧
           (read_error f = None → lines_read f = [])
  | WClosed out => file = Some (whole_file out)
  end.

(** The complete file for a cache: one line per record. *)
Definition snapshot_lines (cache : list value) : list string :=
  map (fun record => json_dumps record ++ newline) cache.

End Codec.

(** ** Vocabulary of the statements *)

Definition is_finished (t : wstate) : bool :=
  match t with
  | WClosed _ => true
  | _ => false
  end.

(** Threads that have been started and have not left [_write]. *)
Definition in_flight (w : World) : nat :=
  length (filter (fun t => is_finished t = false) (threads w)).

(** Threads that have run [_write] to its end: writes performed. *)
Definition writes_done (w : World) : nat :=
  length (filter (fun t => is_finished t = true) (threads w)).

(** Field [key] of the record behind [ref], when it is a dictionary that
    has the key. *)
Definition field (w : World) (ref : nat) (key : string) : option value :=
  match DATA_CACHE w !! ref with
  | Some (VDict d) => d !! key
  | _ => None
  end.

(** [n] calls of [maybe_update_status] on the same record in a row. *)
Fixpoint invocations (O : Oracle) (n : nat) (record : nat) : M unit :=
  match n with
  | 0 => ret tt
  | S k => maybe_update_status O record ;;; invocations O k record
  end.

(** [k] calls of [save_data_async] in a row. *)
Fixpoint signals (k : nat) : M unit :=
  match k with
  | 0 => ret tt
  | S k' => save_data_async ;;; signals k'
  end.

(** The records the model's statements are about: dictionaries whose
    [id], [processing_date], [psp_name] and [status] are strings. *)
Definition str_field (v : value) (key : string) : option string :=
  match v with
  | VDict d =>
      match d !! key with
      | Some (VStr s) => Some s
      | _ => None
      end
  | _ => None
  end.

Definition is_payment (v : value) : Prop :=
  is_Some (str_field v "id") ∧ is_Some (str_field v "processing_date") ∧
  is_Some (str_field v "psp_name") ∧ is_Some (str_field v "status").

(** The destination [random.choice] picks at consultation [n]. *)
Definition chosen (O : Oracle) (n : nat) : string :=
  if (randbelow_at O n mod 2 =? 0)%nat then "approved" else "declined".

(** The dictionary after an advance that consulted the oracle from [n]. *)
Definition advanced (O : Oracle) (n : nat) (d : gmap string value)
  : gmap string value :=
  <["status_updated_at" := VStr (utcnow_at O (2 + n) ++ "Z")]>
    (<["status" := VStr (chosen O (1 + n))]> d).

Definition advances (O : Oracle) (n : nat) (st : value) : bool :=
  py_eq st (VStr "pending") && PrimFloat.ltb (random_at O n) threshold.

(** *** The predicates of the three filters *)

(** [date] is a prefix of the record's [processing_date]. *)
Definition date_ok (date : string) (v : value) : bool :=
  match str_field v "processing_date" with
  | Some s => String.prefix date s
  | None => false
  end.

(** The record's [key] equals [arg] up to case. *)
Definition same_nocase (key arg : string) (v : value) : bool :=
  match str_field v key with
  | Some s => String.eqb (lower s) (lower arg)
  | None => false
  end.

(** A filter counted as supplied whenever the argument is not [None]. *)
Definition supplied (arg : option string) (test : string → value → bool)
    (v : value) : bool :=
  match arg with
  | Some s => test s v
  | None => true
  end.

(** A filter counted only when the argument is a non-empty string. *)
Definition applied (arg : option string) (test : string → value → bool)
    (v : value) : bool :=
  match arg with
  | Some s => if truthy arg then test s v else true
  | None => true
  end.

Definition satisfies_supplied (date psp_name status : option string)
    (v : value) : bool :=
  supplied date date_ok v && supplied psp_name (same_nocase "psp_name") v
  && supplied status (same_nocase "status") v.

Definition satisfies_applied (date psp_name status : option string)
    (v : value) : bool :=
  applied date date_ok v && applied psp_name (same_nocase "psp_name") v
  && applied status (same_nocase "status") v.

(** A test on records, asked of a reference. *)
Definition test_at (w : World) (test : value → bool) (p : nat) : bool :=
  match DATA_CACHE w !! p with
  | Some v => test v
  | None => false
  end.

(** Every reference of [data] points at a payment record. *)
Definition refs_ok (w : World) (data : list nat) : Prop :=
  ∀ p, p ∈ data → ∃ v, DATA_CACHE w !! p = Some v ∧ is_payment v.

(** The status string of the record behind a reference. *)
Definition status_of (w : World) (p : nat) : option string :=
  match DATA_CACHE w !! p with
  | Some v => str_field v "status"
  | None => None
  end.

(** Some record of [refs] has another status in [w'] than in [w]. *)
Definition any_changed (w w' : World) (refs : list nat) : bool :=
  existsb (λ p, negb (bool_decide (status_of w p = status_of w' p))) refs.

(** The world after [save_data_async] when [b] holds, [w] itself
    otherwise. *)
Definition persist_if (b : bool) (w : World) : World :=
  if b then emit EvThreadStart (set_threads (threads w ++ [WReady]) w) else w.

(** The records behind the references [refs], read in [w]. *)
Definition read_in (w : World) (refs : list nat) (records : list value) : Prop :=
  Forall2 (λ p v, DATA_CACHE w !! p = Some v) refs records.

(** What building the response does with a content: the content, or the
    exception of its serialisation. *)
Definition response_of (O : Oracle) (content : value) : outcome value :=
  match json_response_error O content with
  | Some e => Raised e
  | None => Returned content
  end.


(** *** Loading, line by line *)

(** What one line of the file contributes to the store. *)
Definition decoded (json_loads : string → outcome value) (raw : string)
  : option value :=
  match strip raw with
  | EmptyString => None
  | line =>
      match json_loads line with
      | Returned v => Some v
      | Raised _ => None
      end
  end.

(** The message one line of the file causes, if any. *)
Definition skipped (json_loads : string → outcome value) (raw : string)
  : option event :=
  match strip raw with
  | EmptyString => None
  | line =>
      match json_loads line with
      | Raised JSONDecodeError => Some (EvPrintSkipping line)
      | _ => None
      end
  end.

(** The exception one line of the file lets escape, if any: whatever
    [json.loads] raises on it other than [JSONDecodeError]. *)
Definition escaping (json_loads : string → outcome value) (raw : string)
  : option exn :=
  match strip raw with
  | EmptyString => None
  | line =>
      match json_loads line with
      | Returned _ => None
      | Raised JSONDecodeError => None
      | Raised e => Some e
      end
  end.

(** No line lets an exception escape. *)
Definition all_caught (json_loads : string → outcome value)
    (lines : list string) : Prop :=
  Forall (λ raw, escaping json_loads raw = None) lines.

(** *** Schedules of writer threads *)

(** Thread [tid] takes [n] steps in a row. *)
Definition run_thread (json_dumps : value → string) (n tid : nat) (w : World)
  : World :=
  Nat.iter n (thread_step json_dumps tid) w.

(** Each thread of [tids] in turn runs [_write] to its end: the [open],
    one turn per record, and the step that leaves the loop. *)
Definition run_each (json_dumps : value → string) (tids : list nat) (w : World)
  : World :=
  foldl (λ w tid, run_thread json_dumps (length (DATA_CACHE w) + 2) tid w)
        w tids.

(** A stand-in for [json.dumps] in concrete runs: the record's [id]. *)
Definition id_line (v : value) : string :=
  match str_field v "id" with
  | Some s => s
  | None => ""
  end.

(** ** Sample data *)

Definition payment_dict (id date psp status : string) : gmap string value :=
  <["id" := VStr id]>
    (<["processing_date" := VStr date]>
    (<["psp_name" := VStr psp]>
    (<["status" := VStr status]> ∅))).

Definition payment (id date psp status : string) : value :=
  VDict (payment_dict id date psp status).

Definition t1_dict : gmap string value :=
  payment_dict "t1" "2024-01-05" "Stripe" "pending".

(** The three records of the specification's scenario. *)
Definition sample_cache : list value :=
  [ payment "t1" "2024-01-05" "Stripe" "pending";
    payment "t2" "2024-01-05" "Adyen" "approved";
    payment "t3" "2024-02-01" "stripe" "pending" ].

Definition sample_world : World := mkWorld sample_cache 0 [] [].

(** A NaN or an infinity somewhere in a value. *)
Fixpoint has_non_finite (v : value) : bool :=
  match v with
  | VFloat f => PrimFloat.is_nan f || PrimFloat.is_infinity f
  | VList l => existsb has_non_finite l
  | VDict d => map_fold (λ _ x acc, acc || has_non_finite x) false d
  | _ => false
  end.

(** What [json.dumps(content, allow_nan=False)] does inside
    [JSONResponse]: a [ValueError] on a NaN or an infinity. *)
Definition allow_nan_false (content : value) : option exn :=
  if has_non_finite content then Some ValueError else None.

(** An outside world in which every pending record advances to
    ["approved"], and one in which none does. *)
Definition eager : Oracle :=
  mkOracle (fun _ => 0%float) (fun _ => 0) (fun _ => "2024-03-01T00:00:00")
           allow_nan_false.
Definition idle : Oracle :=
  mkOracle (fun _ => 0.5%float) (fun _ => 1) (fun _ => "2024-03-01T00:00:00")
           allow_nan_false.

(** A store whose record has a NaN among its other fields. *)
Definition nan_cache : list value :=
  [ VDict (<["amount" := VFloat PrimFloat.nan]>
             (payment_dict "t4" "2024-02-02" "Adyen" "approved")) ].

(** A world in which one write is under way: its thread has opened the
    file and handed it the first record. *)
Definition busy_world : World :=
  mkWorld sample_cache 0 [WOpen 1 ["t1" ++ newline]] [].

(** *** Requests in a row *)

Inductive request : Type :=
  | ListPayments (date : option string) (page limit : Z)
                 (psp_name status : option string)
  | GetPayment (txn_id : string).

(** The world a request leaves behind, whatever it answers. *)
Definition serve (O : Oracle) (r : request) (w : World) : World :=
  match r with
  | ListPayments date page limit psp_name status =>
      (get_payments O date page limit psp_name status w).2
  | GetPayment txn_id => (get_payment O txn_id w).2
  end.

Definition serve_all (O : Oracle) (rs : list request) (w : World) : World :=
  foldl (λ w r, serve O r w) w rs.

(** How a handler may leave a record: [id], [processing_date] and
    [psp_name] as they were, and the status either as it was or moved from
    ["pending"] to ["approved"] or ["declined"]. *)
Definition evolves (v v' : value) : Prop :=
  str_field v' "id" = str_field v "id" ∧
  str_field v' "processing_date" = str_field v "processing_date" ∧
  str_field v' "psp_name" = str_field v "psp_name" ∧
  (str_field v' "status" = str_field v "status" ∨
   str_field v "status" = Some "pending" ∧
   (str_field v' "status" = Some "approved" ∨
    str_field v' "status" = Some "declined")).

(** A line of the file that is all white space. *)
Definition is_blank (raw : string) : bool :=
  match strip raw with
  | EmptyString => true
  | _ => false
  end.

(** The codec gives every record of [cache] back from its line. *)
Definition round_trips (json_loads : string → outcome value)
    (json_dumps : value → string) (cache : list value) : Prop :=
  Forall (λ v, decoded json_loads (json_dumps v ++ newline) = Some v) cache.

(** A stand-in for [json.loads] in concrete runs, the inverse of
    [id_line] on the records of [table]. *)
Definition table_loads (table : list value) (line : string) : outcome value :=
  match List.find (λ v, String.eqb (id_line v) line) table with
  | Some v => Returned v
  | None => Raised JSONDecodeError
  end.

(** A line of a hundred thousand opening brackets. *)
Definition deep_line : string := N.iter 100000 (String "[") "".

(** A stand-in for [json.loads] that answers as it does on the lines of
    the examples: ["{}"] is the empty dictionary, [deep_line] is nested
    too deep, which raises [RecursionError], and the others (["{"] is one)
    are not JSON. *)
Definition sample_loads (line : string) : outcome value :=
  if String.eqb line "{}" then Returned (VDict ∅)
  else if String.eqb line deep_line then Raised RecursionError
  else Raised JSONDecodeError.

(** A store whose second entry has neither [id] nor [processing_date]. *)
Definition broken_cache : list value :=
  [ payment "t1" "2024-01-05" "Stripe" "pending";
    VDict (<["status" := VStr "pending"]> ∅);
    payment "t3" "2024-02-01" "stripe" "pending" ].

Definition broken_world : World := mkWorld broken_cache 0 [] [].

(** * Properties *)

#[local] Arguments Nat.modulo : simpl never.

(** ** Equality against a string *)

Lemma py_eq_str_iff (v : value) (s : string) :
  py_eq v (VStr s) = true ↔ v = VStr s.
Proof.
  destruct v; simpl; try (split; [discriminate | congruence]).
  rewrite String.eqb_eq. split; congruence.
Qed.

Lemma py_eq_str_refl (s : string) : py_eq (VStr s) (VStr s) = true.
Proof. by apply py_eq_str_iff. Qed.

Lemma py_eq_str_false (v : value) (s : string) :
  v ≠ VStr s → py_eq v (VStr s) = false.
Proof.
  intros Hne. destruct (py_eq v (VStr s)) eqn:E; [|done].
  by apply py_eq_str_iff in E.
Qed.

Lemma transitions_pending :
  STATUS_TRANSITIONS !! "pending" = Some ["approved"; "declined"].
Proof. apply lookup_singleton_eq. Qed.

(** ** One call of [maybe_update_status] *)

Lemma choice_of_two (O : Oracle) (n : nat) :
  ["approved"; "declined"] !! (randbelow_at O n mod 2)%nat = Some (chosen O n).
Proof.
  unfold chosen. pose proof (Nat.mod_upper_bound (randbelow_at O n) 2).
  destruct (randbelow_at O n mod 2)%nat as [|[|k]] eqn:E; simpl; [done|done|lia].
Qed.

Lemma maybe_update_status_eq (O : Oracle) (w : World) (ref : nat)
    (d : gmap string value) (st : value) :
  DATA_CACHE w !! ref = Some (VDict d) →
  d !! "status" = Some st →
  maybe_update_status O ref w =
    (Returned ref,
     if advances O (ticks w) st
     then mkWorld (<[ref := VDict (advanced O (ticks w) d)]> (DATA_CACHE w))
                  (3 + ticks w) (threads w) (trace w ++ [EvSimulate ref])
     else if py_eq st (VStr "pending")
          then tick (emit (EvSimulate ref) w)
          else emit (EvSimulate ref) w).
Proof.
  intros Hd Hst. pose proof (lookup_lt_Some _ _ _ Hd) as Hlt.
  unfold maybe_update_status, advances, getitem, setitem, deref, bind, modify,
    lift, ret, random_random, utcnow_isoformat, transitions_of.
  simpl. rewrite Hd. simpl. rewrite Hst.
  destruct (py_eq st (VStr "pending")) eqn:Ep; simpl; [|done].
  destruct (PrimFloat.ltb (random_at O (ticks w)) threshold) eqn:Er; simpl; [|done].
  rewrite transitions_pending. simpl.
  rewrite (choice_of_two O (S (ticks w))). simpl.
  rewrite Hd. simpl.
  rewrite list_lookup_insert_eq by done. simpl.
  by rewrite list_insert_insert_eq.
Qed.

Lemma field_dict (w : World) (ref : nat) (key : string) (x : value) :
  field w ref key = Some x →
  ∃ d, DATA_CACHE w !! ref = Some (VDict d) ∧ d !! key = Some x.
Proof.
  unfold field. destruct (DATA_CACHE w !! ref) as [[]|]; try discriminate.
  eauto.
Qed.

Lemma maybe_update_status_terminal (O : Oracle) (w : World) (ref : nat)
    (st : value) :
  field w ref "status" = Some st → st ≠ VStr "pending" →
  maybe_update_status O ref w = (Returned ref, emit (EvSimulate ref) w).
Proof.
  intros (d & Hd & Hst)%field_dict Hne.
  rewrite (maybe_update_status_eq O w ref d st Hd Hst).
  unfold advances. by rewrite (py_eq_str_false _ _ Hne).
Qed.

(** C1. A record whose status is not ["pending"] keeps its status through
    one call of [maybe_update_status], and through any number of calls in
    a row: each call returns, and the whole store is as it was. *)
Theorem terminal_status_absorbing (O : Oracle) (w : World) (ref : nat)
    (st : value) :
  field w ref "status" = Some st →
  st ≠ VStr "pending" →
  (∃ w1, maybe_update_status O ref w = (Returned ref, w1) ∧
         field w1 ref "status" = Some st) ∧
  ∀ n, ∃ wn, invocations O n ref w = (Returned tt, wn) ∧
             field wn ref "status" = Some st ∧
             DATA_CACHE wn = DATA_CACHE w.
Proof.
  intros Hst Hne. split.
  - exists (emit (EvSimulate ref) w).
    split; [by apply maybe_update_status_terminal with st | done].
  - intros n. revert w Hst. induction n as [|n IH]; intros w Hst.
    + by exists w.
    + destruct (IH (emit (EvSimulate ref) w) Hst) as (wn & Hrun & Hf & Hc).
      exists wn. simpl. unfold bind.
      by rewrite (maybe_update_status_terminal O w ref st Hst Hne).
Qed.

Lemma terminal_status_absorbing_witness :
  field sample_world 1 "status" = Some (VStr "approved") ∧
  ∃ wn, invocations eager 3 1 sample_world = (Returned tt, wn) ∧
        field wn 1 "status" = Some (VStr "approved") ∧
        DATA_CACHE wn = DATA_CACHE sample_world.
Proof.
  split; [reflexivity|].
  apply (terminal_status_absorbing eager sample_world 1 (VStr "approved"));
    [reflexivity | discriminate].
Defined.

Lemma advanced_frame (O : Oracle) (n : nat) (d : gmap string value)
    (k : string) :
  k ≠ "status" → k ≠ "status_updated_at" → advanced O n d !! k = d !! k.
Proof.
  intros H1 H2. unfold advanced.
  by rewrite !lookup_insert_ne.
Qed.

Lemma advanced_status (O : Oracle) (n : nat) (d : gmap string value) :
  advanced O n d !! "status" = Some (VStr (chosen O (1 + n))).
Proof.
  unfold advanced. rewrite lookup_insert_ne by done. apply lookup_insert_eq.
Qed.

Lemma chosen_cases (O : Oracle) (n : nat) :
  chosen O n = "approved" ∨ chosen O n = "declined".
Proof. unfold chosen. destruct (_ =? _)%nat; auto. Qed.

(** C10. On a record that is a dictionary with a status, one call of
    [maybe_update_status] returns the record it was given and replaces that
    record alone in the store; the new dictionary agrees with the old one
    on every key other than [status] and [status_updated_at]; and either it
    is the old dictionary, or the old status was ["pending"], the new status
    is one of the table's destinations for ["pending"] (["approved"] or
    ["declined"]) and [status_updated_at] holds a string. *)
Theorem maybe_update_status_frame (O : Oracle) (w : World) (ref : nat)
    (d : gmap string value) (st : value) :
  DATA_CACHE w !! ref = Some (VDict d) →
  d !! "status" = Some st →
  ∃ d' w',
    maybe_update_status O ref w = (Returned ref, w') ∧
    DATA_CACHE w' = <[ref := VDict d']> (DATA_CACHE w) ∧
    (∀ j, j ≠ ref → DATA_CACHE w' !! j = DATA_CACHE w !! j) ∧
    (∀ k, k ≠ "status" → k ≠ "status_updated_at" → d' !! k = d !! k) ∧
    (d' = d ∨
     st = VStr "pending" ∧
     ∃ new dests now,
       STATUS_TRANSITIONS !! "pending" = Some dests ∧ new ∈ dests ∧
       (new = "approved" ∨ new = "declined") ∧
       d' !! "status" = Some (VStr new) ∧
       d' !! "status_updated_at" = Some (VStr now)).
Proof.
  intros Hd Hst. rewrite (maybe_update_status_eq O w ref d st Hd Hst).
  destruct (advances O (ticks w) st) eqn:Ea.
  - exists (advanced O (ticks w) d). eexists. split; [reflexivity|].
    simpl. split; [done|]. split.
    { intros j Hj. by rewrite list_lookup_insert_ne. }
    split; [intros k; apply advanced_frame|]. right.
    unfold advances in Ea. apply andb_true_iff in Ea as [Ep _].
    apply py_eq_str_iff in Ep. split; [done|].
    exists (chosen O (1 + ticks w)), ["approved"; "declined"],
      (utcnow_at O (2 + ticks w) ++ "Z").
    split; [apply transitions_pending|]. split.
    { destruct (chosen_cases O (1 + ticks w)) as [-> | ->]; set_solver. }
    split; [apply chosen_cases|]. split; [apply advanced_status|].
    unfold advanced. apply lookup_insert_eq.
  - exists d. eexists. split; [reflexivity|].
    assert (DATA_CACHE
              (if py_eq st (VStr "pending")
               then tick (emit (EvSimulate ref) w)
               else emit (EvSimulate ref) w) = DATA_CACHE w) as ->.
    { by destruct (py_eq st (VStr "pending")). }
    split; [by rewrite list_insert_id|]. split; [done|]. split; [done|by left].
Qed.

Lemma maybe_update_status_frame_witness :
  ∃ d' w',
    maybe_update_status eager 0 sample_world = (Returned 0, w') ∧
    DATA_CACHE w' = <[0 := VDict d']> (DATA_CACHE sample_world) ∧
    (∀ j, j ≠ 0 → DATA_CACHE w' !! j = DATA_CACHE sample_world !! j) ∧
    (∀ k, k ≠ "status" → k ≠ "status_updated_at" →
          d' !! k = t1_dict !! k) ∧
    (d' = t1_dict ∨
     VStr "pending" = VStr "pending" ∧
     ∃ new dests now,
       STATUS_TRANSITIONS !! "pending" = Some dests ∧ new ∈ dests ∧
       (new = "approved" ∨ new = "declined") ∧
       d' !! "status" = Some (VStr new) ∧
       d' !! "status_updated_at" = Some (VStr now)).
Proof.
  apply (maybe_update_status_frame eager sample_world 0 t1_dict
           (VStr "pending")); reflexivity.
Defined.

(** ** The filters of [get_payments] *)

Lemma comprehension_spec (cond : nat → M bool) (f : nat → bool)
    (data : list nat) (w : World) :
  (∀ p, p ∈ data → cond p w = (Returned (f p), w)) →
  comprehension cond data w = (Returned (filter (λ p, f p = true) data), w).
Proof.
  induction data as [|p data IH]; intros Hc; [done|].
  simpl. unfold bind. rewrite (Hc p) by set_solver.
  rewrite IH by (intros q Hq; apply Hc; set_solver).
  rewrite filter_cons. unfold ret.
  destruct (f p); by rewrite ?decide_True, ?decide_False by done.
Qed.

Lemma str_field_subscript (v : value) (key s : string) :
  str_field v key = Some s → subscript v key = Returned (VStr s).
Proof.
  unfold str_field, subscript. destruct v; try discriminate.
  destruct (d !! key) as [[]|]; try discriminate. congruence.
Qed.

Lemma getitem_str (w : World) (p : nat) (v : value) (key s : string) :
  DATA_CACHE w !! p = Some v → str_field v key = Some s →
  getitem p key w = (Returned (VStr s), w).
Proof.
  intros Hv Hs. unfold getitem, deref, bind, lift. rewrite Hv.
  by rewrite (str_field_subscript v key s Hs).
Qed.

Lemma date_cond_spec (date : string) (w : World) (p : nat) (v : value) :
  DATA_CACHE w !! p = Some v → is_payment v →
  date_cond date p w = (Returned (test_at w (date_ok date) p), w).
Proof.
  intros Hv (_ & [s Hs] & _). unfold date_cond, bind.
  rewrite (getitem_str w p v _ s Hv Hs). unfold test_at, date_ok.
  by rewrite Hv, Hs.
Qed.

Lemma lower_cond_spec (key arg : string) (w : World) (p : nat) (v : value) :
  DATA_CACHE w !! p = Some v → is_Some (str_field v key) →
  lower_cond key arg p w = (Returned (test_at w (same_nocase key arg) p), w).
Proof.
  intros Hv [s Hs]. unfold lower_cond, bind.
  rewrite (getitem_str w p v _ s Hv Hs). unfold test_at, same_nocase.
  by rewrite Hv, Hs.
Qed.

Lemma filter_by_spec (arg : option string) (cond : string → nat → M bool)
    (test : string → value → bool) (data : list nat) (w : World) :
  (∀ s p, p ∈ data → cond s p w = (Returned (test_at w (test s) p), w)) →
  refs_ok w data →
  filter_by arg cond data w =
    (Returned (filter (λ p, test_at w (applied arg test) p = true) data), w).
Proof.
  intros Hc Hok.
  assert (∀ t, (∀ p, p ∈ data → test_at w t p = true) →
               filter (λ p, test_at w t p = true) data = data) as Hall.
  { intros t Ht. clear Hc Hok. induction data as [|q data IH]; [done|].
    rewrite filter_cons, decide_True by (apply Ht; set_solver).
    f_equal. apply IH. intros p Hp. apply Ht. set_solver. }
  destruct arg as [[|c s]|]; unfold filter_by, truthy.
  - unfold ret. rewrite Hall; [done|].
    intros p (v & Hv & _)%Hok. unfold test_at. by rewrite Hv.
  - rewrite (comprehension_spec _ (test_at w (test (String c s)))); [done|].
    intros p Hp. by apply Hc.
  - unfold ret. rewrite Hall; [done|].
    intros p (v & Hv & _)%Hok. unfold test_at. by rewrite Hv.
Qed.

Lemma refs_ok_filter (w : World) (P : nat → Prop) `{!∀ p, Decision (P p)}
    (data : list nat) :
  refs_ok w data → refs_ok w (filter P data).
Proof. intros Hok p [_ Hp]%list_elem_of_filter. by apply Hok. Qed.

Lemma refs_ok_seq (w : World) :
  Forall is_payment (DATA_CACHE w) → refs_ok w (seq 0 (length (DATA_CACHE w))).
Proof.
  intros Hall p [_ Hp]%elem_of_seq.
  destruct (lookup_lt_is_Some_2 (DATA_CACHE w) p) as [v Hv]; [lia|].
  exists v. split; [done|]. by eapply Forall_lookup_1.
Qed.

(** The three statements in a row keep, in order, the references that pass
    all three tests. *)
Lemma filtered_spec (date psp_name status : option string) (w : World) :
  Forall is_payment (DATA_CACHE w) →
  filtered date psp_name status w =
    (Returned
       (filter (λ p, test_at w (applied status (same_nocase "status")) p = true)
         (filter (λ p, test_at w (applied psp_name (same_nocase "psp_name")) p
                       = true)
           (filter (λ p, test_at w (applied date date_ok) p = true)
              (seq 0 (length (DATA_CACHE w)))))), w).
Proof.
  intros Hall. pose proof (refs_ok_seq w Hall) as Hok0.
  unfold filtered, bind.
  rewrite (filter_by_spec date date_cond date_ok); [|
    intros s p (v & Hv & Hp)%Hok0; by apply date_cond_spec with v | done].
  set (l1 := filter _ (seq 0 _)).
  assert (refs_ok w l1) as Hok1 by by apply refs_ok_filter.
  rewrite (filter_by_spec psp_name (lower_cond "psp_name")
             (same_nocase "psp_name")); [| | done].
  2:{ intros s p (v & Hv & Hp)%Hok1. apply lower_cond_spec with v; [done|].
      apply Hp. }
  set (l2 := filter _ l1).
  assert (refs_ok w l2) as Hok2 by by apply refs_ok_filter.
  rewrite (filter_by_spec status (lower_cond "status")
             (same_nocase "status")); [done| | done].
  intros s p (v & Hv & Hp)%Hok2. apply lower_cond_spec with v; [done|].
  apply Hp.
Qed.

Lemma StronglySorted_filter {A} (R : relation A) (P : A → Prop)
    `{!∀ x, Decision (P x)} (l : list A) :
  StronglySorted R l → StronglySorted R (filter P l).
Proof.
  induction 1 as [|x l Hs IH Hx]; [constructor|].
  rewrite filter_cons. destruct (decide (P x)); [|done].
  constructor; [done|].
  apply Forall_forall. intros y [_ Hy]%list_elem_of_filter.
  by eapply Forall_forall.
Qed.

Lemma StronglySorted_seq (a n : nat) : StronglySorted lt (seq a n).
Proof.
  revert a. induction n as [|n IH]; intros a; simpl; constructor; [done|].
  apply Forall_forall. intros y Hy%elem_of_seq. lia.
Qed.

Lemma test_at_true (w : World) (test : value → bool) (p : nat) :
  test_at w test p = true ↔ ∃ v, DATA_CACHE w !! p = Some v ∧ test v = true.
Proof.
  unfold test_at. destruct (DATA_CACHE w !! p) as [v|].
  - split; [eauto|]. by intros (? & [= <-] & ?).
  - split; [done|]. by intros (? & ? & ?).
Qed.

(** C2, as the code has it.  On a store of payment records the filtered
    sequence of [get_payments] is computed without touching the world and
    holds exactly the references of the records that pass every filter
    whose argument is a non-empty string ([None] and the empty string
    switch a filter off), each once and in store order. *)
Theorem filtered_exact (date psp_name status : option string) (w : World) :
  Forall is_payment (DATA_CACHE w) →
  ∃ refs,
    filtered date psp_name status w = (Returned refs, w) ∧
    (∀ i, i ∈ refs ↔
          ∃ v, DATA_CACHE w !! i = Some v ∧
               satisfies_applied date psp_name status v = true) ∧
    StronglySorted lt refs.
Proof.
  intros Hall. eexists. split; [by apply filtered_spec|]. split.
  - intros i. rewrite !list_elem_of_filter, !test_at_true, elem_of_seq.
    unfold satisfies_applied. split.
    + intros ((v & Hv & H3) & (v2 & Hv2 & H2) & (v1 & Hv1 & H1) & _).
      exists v. simplify_eq. by rewrite H1, H2, H3.
    + intros (v & Hv & [[H1 H2]%andb_true_iff H3]%andb_true_iff).
      pose proof (lookup_lt_Some _ _ _ Hv). split_and!; eauto with lia.
  - do 3 apply StronglySorted_filter. apply StronglySorted_seq.
Qed.

Lemma sample_cache_payments : Forall is_payment sample_cache.
Proof.
  repeat constructor; by eexists.
Qed.

Lemma filtered_exact_witness :
  ∃ refs,
    filtered (Some "2024-01") (Some "STRIPE") (Some "Pending") sample_world
      = (Returned refs, sample_world) ∧
    (∀ i, i ∈ refs ↔
          ∃ v, DATA_CACHE sample_world !! i = Some v ∧
               satisfies_applied (Some "2024-01") (Some "STRIPE")
                 (Some "Pending") v = true) ∧
    StronglySorted lt refs.
Proof.
  apply (filtered_exact (Some "2024-01") (Some "STRIPE") (Some "Pending")
           sample_world).
  apply sample_cache_payments.
Defined.

(** C2, as stated, fails: asked for the status [""], [get_payments] keeps
    all three sample records, although the status of the first, taken
    without case, is not [""]. *)
Lemma empty_status_filter_keeps_all :
  filtered None None (Some "") sample_world
    = (Returned [0; 1; 2], sample_world) ∧
  sample_cache !! 0 = Some (payment "t1" "2024-01-05" "Stripe" "pending") ∧
  satisfies_supplied None None (Some "")
    (payment "t1" "2024-01-05" "Stripe" "pending") = false.
Proof. by vm_compute. Qed.

Example filtered_sample :
  filtered (Some "2024-01") (Some "STRIPE") (Some "Pending") sample_world
    = (Returned [0], sample_world).
Proof. by vm_compute. Qed.

Example filtered_pending :
  filtered None None (Some "pending") sample_world
    = (Returned [0; 2], sample_world).
Proof. by vm_compute. Qed.

(** ** The update loop of [get_payments] *)

Lemma str_field_advanced (O : Oracle) (n : nat) (d : gmap string value)
    (key : string) :
  key ≠ "status" → key ≠ "status_updated_at" →
  str_field (VDict (advanced O n d)) key = str_field (VDict d) key.
Proof. intros H1 H2. unfold str_field. by rewrite advanced_frame. Qed.

Lemma is_payment_advanced (O : Oracle) (n : nat) (d : gmap string value) :
  is_payment (VDict d) → is_payment (VDict (advanced O n d)).
Proof.
  intros (Hi & Hd & Hp & Hs). unfold is_payment.
  rewrite !str_field_advanced by done. split_and!; try done.
  unfold str_field. rewrite advanced_status. by eexists.
Qed.

(** One call on a payment record: it returns, replaces that record by a
    payment record, starts no thread and leaves one event. *)
Lemma simulate_payment (O : Oracle) (w : World) (p : nat) (v : value) :
  DATA_CACHE w !! p = Some v → is_payment v →
  ∃ w1 v1,
    maybe_update_status O p w = (Returned p, w1) ∧
    DATA_CACHE w1 = <[p := v1]> (DATA_CACHE w) ∧ is_payment v1 ∧
    threads w1 = threads w ∧ trace w1 = (trace w ++ [EvSimulate p])%list.
Proof.
  intros Hv Hpay. destruct v as [| | | | | |d];
    try (destruct Hpay as ([? ?] & _); discriminate).
  destruct Hpay as (Hi & Hd & Hp & [s Hs]).
  assert (d !! "status" = Some (VStr s)) as Hst.
  { unfold str_field in Hs. destruct (d !! "status") as [[]|]; congruence. }
  rewrite (maybe_update_status_eq O w p d _ Hv Hst).
  destruct (advances O (ticks w) (VStr s)).
  - eexists _, (VDict (advanced O (ticks w) d)). split; [done|]. simpl.
    split_and!; try done. apply is_payment_advanced. split_and!; by eauto.
  - exists (if py_eq (VStr s) (VStr "pending")
            then tick (emit (EvSimulate p) w) else emit (EvSimulate p) w),
      (VDict d).
    split; [done|]. destruct (py_eq (VStr s) (VStr "pending")); simpl;
      (split_and!; [by rewrite list_insert_id| by split_and!; eauto |done|done]).
Qed.

Lemma status_of_str (w : World) (p : nat) (v : value) :
  DATA_CACHE w !! p = Some v → is_payment v →
  ∃ s, status_of w p = Some s ∧ getitem p "status" w = (Returned (VStr s), w).
Proof.
  intros Hv (_ & _ & _ & [s Hs]). exists s. split.
  - unfold status_of. by rewrite Hv.
  - by apply getitem_str with v.
Qed.

Lemma any_changed_ext (w1 w2 w' : World) (refs : list nat) :
  (∀ p, p ∈ refs → status_of w1 p = status_of w2 p) →
  any_changed w1 w' refs = any_changed w2 w' refs.
Proof.
  intros Heq. induction refs as [|q refs IH]; [done|]. simpl.
  rewrite (Heq q) by set_solver. f_equal. apply IH.
  intros p Hp. apply Heq. set_solver.
Qed.

(** The loop calls [maybe_update_status] once on every reference, in
    order, whatever it finds; its flag records whether a status differs
    afterwards; it starts no thread and touches no other record. *)
Lemma update_loop_spec (O : Oracle) (data : list nat) :
  ∀ (acc : bool) (w : World),
    Forall is_payment (DATA_CACHE w) → NoDup data →
    (∀ p, p ∈ data → p < length (DATA_CACHE w)) →
    ∃ w',
      update_loop O data acc w = (Returned (acc || any_changed w w' data), w') ∧
      Forall is_payment (DATA_CACHE w') ∧
      length (DATA_CACHE w') = length (DATA_CACHE w) ∧
      threads w' = threads w ∧
      trace w' = (trace w ++ map EvSimulate data)%list ∧
      (∀ j, j ∉ data → DATA_CACHE w' !! j = DATA_CACHE w !! j).
Proof.
  induction data as [|p data IH]; intros acc w Hall Hnd Hlt.
  - exists w. simpl. rewrite orb_false_r, app_nil_r. by split_and!.
  - apply NoDup_cons in Hnd as [Hp Hnd].
    destruct (lookup_lt_is_Some_2 (DATA_CACHE w) p) as [v Hv];
      [apply Hlt; set_solver|].
    pose proof (Forall_lookup_1 _ _ _ _ Hall Hv) as Hpay.
    destruct (status_of_str w p v Hv Hpay) as (s & Hs & Hget).
    destruct (simulate_payment O w p v Hv Hpay)
      as (w1 & v1 & Hrun & Hc1 & Hpay1 & Ht1 & Htr1).
    assert (p < length (DATA_CACHE w)) as Hplt by (apply Hlt; set_solver).
    assert (DATA_CACHE w1 !! p = Some v1) as Hv1.
    { rewrite Hc1. by apply list_lookup_insert_eq. }
    destruct (status_of_str w1 p v1 Hv1 Hpay1) as (s1 & Hs1 & Hget1).
    assert (Forall is_payment (DATA_CACHE w1)) as Hall1.
    { rewrite Hc1. by apply Forall_insert. }
    assert (length (DATA_CACHE w1) = length (DATA_CACHE w)) as Hlen1.
    { rewrite Hc1. apply length_insert. }
    destruct (IH (if py_eq (VStr s1) (VStr s) then acc else true) w1 Hall1 Hnd)
      as (w' & Hloop & Hall' & Hlen' & Ht' & Htr' & Hframe).
    { intros q Hq. rewrite Hlen1. apply Hlt. set_solver. }
    exists w'. split_and!.
    + simpl. unfold bind. rewrite Hget, Hrun, Hget1, Hloop. f_equal. f_equal.
      assert (status_of w' p = Some s1) as Hs'.
      { unfold status_of. rewrite (Hframe p Hp). apply Hs1. }
      rewrite Hs, Hs'.
      rewrite <- (any_changed_ext w w1 w' data).
      2:{ intros q Hq. unfold status_of. rewrite Hc1.
          rewrite list_lookup_insert_ne; [done|]. intros ->. done. }
      simpl. destruct (String.eqb_spec s1 s) as [->|Hne].
      * by rewrite bool_decide_eq_true_2.
      * rewrite bool_decide_eq_false_2 by congruence. simpl.
        by rewrite orb_true_r.
    + done.
    + congruence.
    + congruence.
    + rewrite Htr', Htr1. simpl. by rewrite <- app_assoc.
    + intros j Hj. rewrite (Hframe j) by set_solver. rewrite Hc1.
      apply list_lookup_insert_ne. set_solver.
Qed.

(** ** [get_payments] as a whole *)

Lemma filtered_refs (date psp_name status : option string) (w : World) :
  Forall is_payment (DATA_CACHE w) →
  ∃ refs, filtered date psp_name status w = (Returned refs, w) ∧
          NoDup refs ∧ ∀ p, p ∈ refs → p < length (DATA_CACHE w).
Proof.
  intros Hall. eexists. split; [by apply filtered_spec|]. split.
  - do 3 apply NoDup_filter. apply NoDup_seq.
  - intros p Hp. do 3 apply list_elem_of_filter in Hp as [_ Hp].
    apply elem_of_seq in Hp. lia.
Qed.

Lemma deref_all_spec (refs : list nat) (w : World) :
  (∀ p, p ∈ refs → p < length (DATA_CACHE w)) →
  ∃ records, deref_all refs w = (Returned records, w) ∧ read_in w refs records.
Proof.
  induction refs as [|p refs IH]; intros Hlt.
  - exists []. split; [done|constructor].
  - destruct (lookup_lt_is_Some_2 (DATA_CACHE w) p) as [v Hv];
      [apply Hlt; set_solver|].
    destruct IH as (records & Hrun & Hread);
      [intros q Hq; apply Hlt; set_solver|].
    exists (v :: records). split; [|by constructor].
    simpl. unfold bind, deref. by rewrite Hv, Hrun.
Qed.

Lemma py_slice_subseteq {A} (l : list A) (start stop : Z) :
  py_slice l start stop ⊆ l.
Proof.
  unfold py_slice. etrans; [apply subseteq_take|apply subseteq_drop].
Qed.

(** For a page number and a limit of at least one the slice is the usual
    window of [limit] places from place [(page - 1) * limit]. *)
Lemma py_slice_page {A} (l : list A) (page limit : Z) :
  (1 ≤ page)%Z → (1 ≤ limit)%Z →
  py_slice l ((page - 1) * limit) (page * limit) =
    take (Z.to_nat limit) (drop (Z.to_nat ((page - 1) * limit)) l).
Proof.
  intros Hp Hl. unfold py_slice, slice_bound.
  set (n := Z.of_nat (length l)).
  assert (0 ≤ (page - 1) * limit)%Z as Hs by nia.
  assert ((page - 1) * limit + limit = page * limit)%Z as He by lia.
  destruct (Z.ltb_spec ((page - 1) * limit) 0) as [?|_]; [lia|].
  destruct (Z.ltb_spec (page * limit) 0) as [?|_]; [lia|].
  destruct (Z.le_gt_cases n ((page - 1) * limit)) as [Hge|Hlt].
  - rewrite !drop_ge by (subst n; lia). by rewrite !take_nil.
  - rewrite (Z.min_l ((page - 1) * limit) n) by lia.
    destruct (Z.le_gt_cases (page * limit) n) as [Hin|Hout].
    + rewrite Z.min_l by lia. f_equal. lia.
    + rewrite Z.min_r by lia.
      rewrite !take_ge; [done| |]; rewrite length_drop; subst n; lia.
Qed.

(** The whole handler on a store of payment records: filter, loop over
    the whole filtered sequence, start at most one thread, then cut the
    page out of the filtered sequence and read its records. *)
Lemma get_payments_spec (O : Oracle) (date : option string) (page limit : Z)
    (psp_name status : option string) (w : World) :
  Forall is_payment (DATA_CACHE w) →
  ∃ refs w1 records,
    filtered date psp_name status w = (Returned refs, w) ∧
    update_loop O refs false w = (Returned (any_changed w w1 refs), w1) ∧
    threads w1 = threads w ∧
    trace w1 = (trace w ++ map EvSimulate refs)%list ∧
    read_in (persist_if (any_changed w w1 refs) w1)
      (py_slice refs ((page - 1) * limit) (page * limit)) records ∧
    get_payments O date page limit psp_name status w =
      (match records with
       | [] => Raised (HTTPException 404 "No more records")
       | _ => response_of O (page_content date page limit records)
       end, persist_if (any_changed w w1 refs) w1).
Proof.
  intros Hall.
  destruct (filtered_refs date psp_name status w Hall) as (refs & Hf & Hnd & Hlt).
  destruct (update_loop_spec O refs false w Hall Hnd Hlt)
    as (w1 & Hloop & Hall1 & Hlen1 & Ht1 & Htr1 & _).
  simpl in Hloop.
  set (w2 := persist_if (any_changed w w1 refs) w1).
  assert (DATA_CACHE w2 = DATA_CACHE w1) as Hc2.
  { unfold w2, persist_if. by destruct (any_changed w w1 refs). }
  destruct (deref_all_spec
              (py_slice refs ((page - 1) * limit) (page * limit)) w2)
    as (records & Hderef & Hread).
  { intros p Hp%py_slice_subseteq. rewrite Hc2, Hlen1. by apply Hlt. }
  exists refs, w1, records. split_and!; try done.
  unfold get_payments, bind. rewrite Hf, Hloop.
  assert ((if any_changed w w1 refs then save_data_async else ret ()) w1
          = (Returned (), w2)) as ->.
  { unfold w2, persist_if. by destruct (any_changed w w1 refs). }
  destruct (py_slice refs ((page - 1) * limit) (page * limit)) as [|p ps] eqn:Es.
  - by inversion Hread.
  - rewrite Hderef. inversion Hread. subst.
    unfold JSONResponse, response_of.
    by destruct (json_response_error O _).
Qed.

Lemma any_changed_cache (w w1 w2 : World) (refs : list nat) :
  DATA_CACHE w1 = DATA_CACHE w2 →
  any_changed w w1 refs = any_changed w w2 refs.
Proof.
  intros Hc. unfold any_changed, status_of. by rewrite Hc.
Qed.

Lemma persist_if_cache (b : bool) (w : World) :
  DATA_CACHE (persist_if b w) = DATA_CACHE w.
Proof. by destruct b. Qed.

(** C3. On a store of payment records, whatever page and limit are asked
    for, [get_payments] calls [maybe_update_status] once on every record of
    the filtered sequence, in order; only then, and only if the status of
    one of them is no longer what it was, it starts a thread, exactly one;
    and the records of a returned page are read from the store as the
    calls have left it. *)
Theorem simulator_runs_on_whole_filter (O : Oracle) (date : option string)
    (page limit : Z) (psp_name status : option string) (w : World) :
  Forall is_payment (DATA_CACHE w) →
  ∃ refs o w',
    filtered date psp_name status w = (Returned refs, w) ∧
    get_payments O date page limit psp_name status w = (o, w') ∧
    trace w' = (trace w ++ map EvSimulate refs ++
                if any_changed w w' refs then [EvThreadStart] else [])%list ∧
    threads w' = (threads w ++
                  if any_changed w w' refs then [WReady] else [])%list ∧
    ∀ c, o = Returned c →
         ∃ records,
           subscript c "data" = Returned (VList records) ∧
           read_in w' (py_slice refs ((page - 1) * limit) (page * limit))
             records.
Proof.
  intros Hall.
  destruct (get_payments_spec O date page limit psp_name status w Hall)
    as (refs & w1 & records & Hf & _ & Ht1 & Htr1 & Hread & Hrun).
  set (b := any_changed w w1 refs) in *.
  exists refs. eexists _, (persist_if b w1). split; [done|]. split; [done|].
  rewrite (any_changed_cache w (persist_if b w1) w1) by apply persist_if_cache.
  fold b. split_and!.
  - destruct b; simpl; rewrite Htr1; by rewrite <- ?app_assoc, ?app_nil_r.
  - destruct b; simpl; rewrite Ht1; by rewrite ?app_nil_r.
  - intros c Hc. exists records. split; [|done].
    destruct records; [discriminate|]. unfold response_of in Hc.
    destruct (json_response_error O _); [discriminate|].
    by injection Hc as <-.
Qed.

Lemma simulator_runs_on_whole_filter_witness :
  ∃ refs o w',
    filtered None None (Some "pending") sample_world
      = (Returned refs, sample_world) ∧
    get_payments eager None 2 1 None (Some "pending") sample_world = (o, w') ∧
    trace w' = (trace sample_world ++ map EvSimulate refs ++
                if any_changed sample_world w' refs
                then [EvThreadStart] else [])%list ∧
    threads w' = (threads sample_world ++
                  if any_changed sample_world w' refs
                  then [WReady] else [])%list ∧
    ∀ c, o = Returned c →
         ∃ records,
           subscript c "data" = Returned (VList records) ∧
           read_in w' (py_slice refs ((2 - 1) * 1) (2 * 1)) records.
Proof.
  apply (simulator_runs_on_whole_filter eager None 2 1 None (Some "pending")
           sample_world).
  apply sample_cache_payments.
Defined.

(** Asked for the second page of one pending record, with every pending
    record advancing: both pending records are advanced, one thread is
    started, and the page shows the third record as approved. *)
Example get_payments_second_page :
  ∃ w',
    get_payments eager None 2 1 None (Some "pending") sample_world =
      (Returned
         (page_content None 2 1
            [VDict (<["status_updated_at" := VStr "2024-03-01T00:00:00Z"]>
                      (payment_dict "t3" "2024-02-01" "stripe" "approved"))]),
       w') ∧
    trace w' = [EvSimulate 0; EvSimulate 2; EvThreadStart] ∧
    threads w' = [WReady] ∧
    status_of w' 0 = Some "approved".
Proof. eexists. by vm_compute. Qed.




Example get_payments_last_page :
  (get_payments idle None 2 2 None None sample_world).1 =
    Returned (page_content None 2 2
                [payment "t3" "2024-02-01" "stripe" "pending"]).
Proof. by vm_compute. Qed.

Example get_payments_past_the_end :
  (get_payments idle None 3 2 None None sample_world).1 =
    Raised (HTTPException 404 "No more records").
Proof. by vm_compute. Qed.

(** A payment record with a NaN in another field is loaded and filtered
    like any other, but a page that holds it cannot be serialised. *)
Example get_payments_nan :
  Forall is_payment nan_cache ∧
  (get_payments idle None 1 10 None None (mkWorld nan_cache 0 [] [])).1 =
    Raised ValueError.
Proof. split; [repeat constructor; by eexists | by vm_compute]. Qed.

(** ** The content of a page *)

(** C8, as the code has it.  Whenever [get_payments] returns, the content
    it returns has exactly the five entries [date], [page], [limit],
    [count] and [data]: the [date] argument as given, the page number, the
    limit, the number of records of the page and those records.  Of the
    three filters only [date] comes back; [psp_name] and [status] are not
    keys of the content. *)
Theorem page_echoes_date_only (O : Oracle) (date : option string)
    (page limit : Z) (psp_name status : option string) (w w' : World)
    (c : value) :
  get_payments O date page limit psp_name status w = (Returned c, w') →
  ∃ records,
    c = page_content date page limit records ∧
    subscript c "date" = Returned (opt_str date) ∧
    subscript c "page" = Returned (VInt page) ∧
    subscript c "limit" = Returned (VInt limit) ∧
    subscript c "count" = Returned (VInt (Z.of_nat (length records))) ∧
    subscript c "data" = Returned (VList records) ∧
    subscript c "psp_name" = Raised (KeyError "psp_name") ∧
    subscript c "status" = Raised (KeyError "status").
Proof.
  unfold get_payments, bind. intros Hrun.
  destruct (filtered date psp_name status w) as [[refs|?] w0]; [|done].
  destruct (update_loop O refs false w0) as [[b|?] w1]; [|done].
  destruct ((if b then save_data_async else ret ()) w1) as [[[]|?] w2]; [|done].
  destruct (py_slice refs ((page - 1) * limit) (page * limit)); [done|].
  destruct (deref_all (n :: l) w2) as [[records|?] w3]; [|done].
  unfold JSONResponse in Hrun.
  destruct (json_response_error O _); [done|].
  injection Hrun as <- <-. exists records. by split_and!.
Qed.

Lemma page_echoes_date_only_witness :
  ∃ records,
    page_content None 1 10 [payment "t2" "2024-01-05" "Adyen" "approved"]
      = page_content None 1 10 records ∧
    subscript (page_content None 1 10
                 [payment "t2" "2024-01-05" "Adyen" "approved"]) "date"
      = Returned (opt_str None) ∧
    subscript (page_content None 1 10
                 [payment "t2" "2024-01-05" "Adyen" "approved"]) "page"
      = Returned (VInt 1) ∧
    subscript (page_content None 1 10
                 [payment "t2" "2024-01-05" "Adyen" "approved"]) "limit"
      = Returned (VInt 10) ∧
    subscript (page_content None 1 10
                 [payment "t2" "2024-01-05" "Adyen" "approved"]) "count"
      = Returned (VInt (Z.of_nat (length records))) ∧
    subscript (page_content None 1 10
                 [payment "t2" "2024-01-05" "Adyen" "approved"]) "data"
      = Returned (VList records) ∧
    subscript (page_content None 1 10
                 [payment "t2" "2024-01-05" "Adyen" "approved"]) "psp_name"
      = Raised (KeyError "psp_name") ∧
    subscript (page_content None 1 10
                 [payment "t2" "2024-01-05" "Adyen" "approved"]) "status"
      = Raised (KeyError "status").
Proof.
  apply (page_echoes_date_only idle None 1 10 (Some "adyen") None sample_world
           (mkWorld sample_cache 0 [] [EvSimulate 1])).
  by vm_compute.
Defined.

(** C8, as stated, fails: a page filtered by [psp_name] is returned
    without a [psp_name] entry. *)
Lemma psp_name_not_echoed :
  (get_payments idle None 1 10 (Some "adyen") None sample_world).1 =
    Returned (page_content None 1 10
                [payment "t2" "2024-01-05" "Adyen" "approved"]) ∧
  subscript (page_content None 1 10
               [payment "t2" "2024-01-05" "Adyen" "approved"]) "psp_name"
    = Raised (KeyError "psp_name").
Proof. by vm_compute. Qed.

(** ** [get_payment] *)

Lemma find_loop_skip (O : Oracle) (txn_id : string) (w : World)
    (refs rest : list nat) :
  (∀ p, p ∈ refs →
        ∃ v, DATA_CACHE w !! p = Some v ∧ is_payment v ∧
             str_field v "id" ≠ Some txn_id) →
  find_loop O txn_id (refs ++ rest) w = find_loop O txn_id rest w.
Proof.
  induction refs as [|p refs IH]; intros Hmiss; [done|].
  destruct (Hmiss p) as (v & Hv & Hpay & Hid); [set_solver|].
  destruct Hpay as ([i Hi] & _).
  simpl. unfold bind at 1. rewrite (getitem_str w p v "id" i Hv Hi).
  rewrite py_eq_str_false by congruence.
  apply IH. intros q Hq. apply Hmiss. set_solver.
Qed.

Lemma find_loop_hit (O : Oracle) (txn_id : string) (w : World) (p : nat)
    (v : value) (rest : list nat) :
  DATA_CACHE w !! p = Some v → is_payment v →
  str_field v "id" = Some txn_id →
  ∃ w1,
    (maybe_update_status O p w).2 = w1 ∧
    find_loop O txn_id (p :: rest) w =
      (Returned p, persist_if (any_changed w w1 [p]) w1) ∧
    threads w1 = threads w ∧
    trace w1 = (trace w ++ [EvSimulate p])%list ∧
    ∀ j, j ≠ p → DATA_CACHE w1 !! j = DATA_CACHE w !! j.
Proof.
  intros Hv Hpay Hid.
  destruct (status_of_str w p v Hv Hpay) as (s & Hs & Hget).
  destruct (simulate_payment O w p v Hv Hpay)
    as (w1 & v1 & Hrun & Hc1 & Hpay1 & Ht1 & Htr1).
  pose proof (lookup_lt_Some _ _ _ Hv) as Hlt.
  assert (DATA_CACHE w1 !! p = Some v1) as Hv1.
  { rewrite Hc1. by apply list_lookup_insert_eq. }
  destruct (status_of_str w1 p v1 Hv1 Hpay1) as (s1 & Hs1 & Hget1).
  exists w1. rewrite Hrun. split; [done|]. split_and!; try done.
  - simpl. unfold bind. rewrite (getitem_str w p v "id" txn_id Hv Hid).
    rewrite py_eq_str_refl, Hget, Hrun, Hget1. simpl. rewrite Hs, Hs1.
    destruct (String.eqb_spec s1 s) as [->|Hne].
    + by rewrite bool_decide_eq_true_2.
    + by rewrite bool_decide_eq_false_2 by congruence.
  - intros j Hj. rewrite Hc1. by apply list_lookup_insert_ne.
Qed.

(** C7. On a store of payment records [get_payment] walks the store in
    order.  At the first record whose [id] is the one asked for it calls
    [maybe_update_status] once, on that record; it starts a thread, one,
    exactly when the status of that record is no longer what it was; it
    returns that record and leaves the others as they were.  When no
    record has that [id] it raises 404 "Transaction not found" and the
    world is untouched: no call, no thread, the same store. *)
Theorem get_payment_found_or_not (O : Oracle) (txn_id : string) (w : World) :
  Forall is_payment (DATA_CACHE w) →
  (∀ i v,
     DATA_CACHE w !! i = Some v → str_field v "id" = Some txn_id →
     (∀ j u, j < i → DATA_CACHE w !! j = Some u →
             str_field u "id" ≠ Some txn_id) →
     ∃ w',
       get_payment O txn_id w = (Returned i, w') ∧
       trace w' = (trace w ++ [EvSimulate i] ++
                   if any_changed w w' [i] then [EvThreadStart] else [])%list ∧
       threads w' = (threads w ++
                     if any_changed w w' [i] then [WReady] else [])%list ∧
       ∀ j, j ≠ i → DATA_CACHE w' !! j = DATA_CACHE w !! j) ∧
  ((∀ i v, DATA_CACHE w !! i = Some v → str_field v "id" ≠ Some txn_id) →
   get_payment O txn_id w =
     (Raised (HTTPException 404 "Transaction not found"), w)).
Proof.
  intros Hall. split.
  - intros i v Hv Hid Hfirst.
    pose proof (lookup_lt_Some _ _ _ Hv) as Hlt.
    pose proof (Forall_lookup_1 _ _ _ _ Hall Hv) as Hpay.
    unfold get_payment.
    replace (length (DATA_CACHE w)) with (i + S (length (DATA_CACHE w) - S i))
      by lia.
    rewrite seq_app, <- cons_seq. change (0 + i) with i.
    rewrite find_loop_skip.
    2:{ intros p [_ Hp]%elem_of_seq.
        destruct (lookup_lt_is_Some_2 (DATA_CACHE w) p) as [u Hu]; [lia|].
        exists u. split; [done|]. split; [by eapply Forall_lookup_1|].
        apply (Hfirst p u); [lia|done]. }
    destruct (find_loop_hit O txn_id w i v
                (seq (S i) (length (DATA_CACHE w) - S i)) Hv Hpay Hid)
      as (w1 & _ & Hrun & Ht1 & Htr1 & Hframe).
    set (b := any_changed w w1 [i]) in *.
    exists (persist_if b w1). split; [done|].
    rewrite (any_changed_cache w (persist_if b w1) w1) by apply persist_if_cache.
    fold b. split_and!.
    + destruct b; simpl; rewrite Htr1; by rewrite <- ?app_assoc.
    + destruct b; simpl; rewrite Ht1; by rewrite ?app_nil_r.
    + intros j Hj. rewrite persist_if_cache. by apply Hframe.
  - intros Hnone. unfold get_payment.
    rewrite <- (app_nil_r (seq 0 _)). rewrite find_loop_skip; [done|].
    intros p [_ Hp]%elem_of_seq.
    destruct (lookup_lt_is_Some_2 (DATA_CACHE w) p) as [u Hu]; [lia|].
    exists u. split; [done|]. split; [by eapply Forall_lookup_1|].
    by apply (Hnone p u).
Qed.

Lemma get_payment_found_or_not_witness :
  (∀ i v,
     DATA_CACHE sample_world !! i = Some v → str_field v "id" = Some "t3" →
     (∀ j u, j < i → DATA_CACHE sample_world !! j = Some u →
             str_field u "id" ≠ Some "t3") →
     ∃ w',
       get_payment eager "t3" sample_world = (Returned i, w') ∧
       trace w' = (trace sample_world ++ [EvSimulate i] ++
                   if any_changed sample_world w' [i]
                   then [EvThreadStart] else [])%list ∧
       threads w' = (threads sample_world ++
                     if any_changed sample_world w' [i]
                     then [WReady] else [])%list ∧
       ∀ j, j ≠ i → DATA_CACHE w' !! j = DATA_CACHE sample_world !! j) ∧
  ((∀ i v, DATA_CACHE sample_world !! i = Some v →
           str_field v "id" ≠ Some "t3") →
   get_payment eager "t3" sample_world =
     (Raised (HTTPException 404 "Transaction not found"), sample_world)).
Proof.
  apply (get_payment_found_or_not eager "t3" sample_world).
  apply sample_cache_payments.
Defined.

(** The scenario of the specification: [t2] is approved, so asking for it
    returns it unchanged and starts no thread; an unknown id is a 404. *)
Example get_payment_t2 :
  get_payment eager "t2" sample_world =
    (Returned 1, mkWorld sample_cache 0 [] [EvSimulate 1]).
Proof. by vm_compute. Qed.

Example get_payment_t3 :
  ∃ w', get_payment eager "t3" sample_world = (Returned 2, w') ∧
        status_of w' 2 = Some "approved" ∧
        trace w' = [EvSimulate 2; EvThreadStart] ∧ threads w' = [WReady].
Proof. eexists. by vm_compute. Qed.

Example get_payment_unknown :
  get_payment eager "t9" sample_world =
    (Raised (HTTPException 404 "Transaction not found"), sample_world).
Proof. by vm_compute. Qed.

(** ** Loading *)

Lemma omap_cons {A B} (f : A → option B) (x : A) (l : list A) :
  omap f (x :: l) = match f x with
                    | Some y => y :: omap f l
                    | None => omap f l
                    end.
Proof. done. Qed.

(** One turn of [for line in f] on a line that lets nothing escape. *)
Lemma load_line_caught (json_loads : string → outcome value)
    (raw : string) (rest : list string) (w : World) :
  escaping json_loads raw = None →
  ∃ w1,
    load_lines json_loads (raw :: rest) w = load_lines json_loads rest w1 ∧
    DATA_CACHE w1 = (DATA_CACHE w ++ omap (decoded json_loads) [raw])%list ∧
    trace w1 = (trace w ++ omap (skipped json_loads) [raw])%list ∧
    threads w1 = threads w ∧ ticks w1 = ticks w.
Proof.
  intros Hesc. rewrite !omap_cons. unfold escaping in Hesc.
  unfold decoded, skipped. cbn [load_lines]. unfold bind at 1.
  destruct (strip raw) as [|c line].
  - exists w. simpl. by rewrite !app_nil_r.
  - destruct (json_loads (String c line)) as [v|[]]; try done.
    + eexists. split; [done|]. simpl. by rewrite app_nil_r.
    + eexists. split; [done|]. simpl. by rewrite app_nil_r.
Qed.

Lemma load_lines_spec (json_loads : string → outcome value)
    (lines : list string) :
  all_caught json_loads lines →
  ∀ w, ∃ w',
    load_lines json_loads lines w = (Returned (), w') ∧
    DATA_CACHE w' = (DATA_CACHE w ++ omap (decoded json_loads) lines)%list ∧
    trace w' = (trace w ++ omap (skipped json_loads) lines)%list ∧
    threads w' = threads w ∧ ticks w' = ticks w.
Proof.
  induction 1 as [|raw lines Hraw _ IH]; intros w.
  - exists w. simpl. by rewrite !app_nil_r.
  - destruct (load_line_caught json_loads raw lines w Hraw)
      as (w1 & -> & Hc1 & Ht1 & Hth1 & Hti1).
    destruct (IH w1) as (w' & Hrun & Hc & Ht & Hth & Hti).
    exists w'. split; [done|].
    rewrite Hc, Hc1, Ht, Ht1, <- !app_assoc, Hth, Hti.
    rewrite (omap_app _ [raw] lines), (omap_app _ [raw] lines).
    done.
Qed.

(** A line that lets an exception escape ends the loop there. *)
Lemma load_lines_aborts (json_loads : string → outcome value)
    (before : list string) (bad : string) (after : list string) (e : exn) :
  all_caught json_loads before →
  escaping json_loads bad = Some e →
  ∀ w, ∃ w',
    load_lines json_loads (before ++ bad :: after) w = (Raised e, w') ∧
    DATA_CACHE w' = (DATA_CACHE w ++ omap (decoded json_loads) before)%list ∧
    trace w' = (trace w ++ omap (skipped json_loads) before)%list.
Proof.
  intros Hbefore Hbad.
  induction Hbefore as [|raw before Hraw _ IH]; intros w.
  - exists w. simpl. rewrite !app_nil_r. split; [|done].
    unfold escaping in Hbad. unfold bind.
    destruct (strip bad) as [|c line]; [done|].
    by destruct (json_loads (String c line)) as [v|[]]; simplify_eq.
  - destruct (load_line_caught json_loads raw (before ++ bad :: after) w Hraw)
      as (w1 & Hstep & Hc1 & Ht1 & _).
    destruct (IH w1) as (w' & Hrun & Hc & Ht).
    exists w'. rewrite <- app_comm_cons, Hstep. split; [done|].
    rewrite Hc, Hc1, Ht, Ht1, <- !app_assoc.
    by rewrite (omap_app _ [raw] before), (omap_app _ [raw] before).
Qed.



(** A file of four lines: a record, a broken line, a blank line, a
    record in white space.  Two records are loaded, one line is reported. *)
Example load_four_lines :
  load_data_once sample_loads
    (Some (whole_file ["{}"; "{"; "   "; "  {}  "])) sample_world =
    (Returned (),
     mkWorld [VDict ∅; VDict ∅] 0 []
       [EvPrintSkipping "{"; EvPrintLoaded 2]).
Proof. by vm_compute. Qed.

(** A gzip stream that stops short after two lines: both are read, then
    the load fails. *)
Example load_truncated_file :
  load_data_once sample_loads (Some (mkFile ["{}"; "{}"] (Some EOFError)))
    sample_world
    = (Raised EOFError, mkWorld [VDict ∅; VDict ∅] 0 [] []).
Proof. by vm_compute. Qed.

(** ** Writer threads *)

Lemma signals_spec (k : nat) :
  ∀ w, signals k w =
         (Returned (),
          mkWorld (DATA_CACHE w) (ticks w) (threads w ++ replicate k WReady)
                  (trace w ++ replicate k EvThreadStart)).
Proof.
  induction k as [|k IH]; intros w.
  - simpl. unfold ret. rewrite !app_nil_r. by destruct w.
  - simpl. unfold bind, save_data_async, modify. rewrite IH. simpl.
    by rewrite <- !app_assoc.
Qed.

Lemma in_flight_app (w : World) (ts : list wstate) :
  in_flight (set_threads (threads w ++ ts) w) =
    in_flight w + length (filter (λ t, is_finished t = false) ts).
Proof. unfold in_flight. simpl. by rewrite filter_app, length_app. Qed.

Lemma filter_replicate_ready (k : nat) :
  filter (λ t, is_finished t = false) (replicate k WReady) = replicate k WReady
  ∧ filter (λ t, is_finished t = true) (replicate k WReady) = [].
Proof.
  induction k as [|k [IH1 IH2]]; [done|]. simpl.
  rewrite !filter_cons, IH1, IH2.
  by repeat case_decide.
Qed.

(** The thread after the [open] and [k] turns of the loop, on a store that
    stays as it is. *)
Lemma write_steps_open (json_dumps : value → string) (cache : list value)
    (k : nat) :
  (k ≤ length cache)%nat →
  Nat.iter (S k) (write_step json_dumps cache) WReady =
    WOpen k (take k (snapshot_lines json_dumps cache)).
Proof.
  induction k as [|k IH]; intros Hk; [done|].
  rewrite Nat.iter_succ, IH by lia. simpl.
  destruct (lookup_lt_is_Some_2 cache k) as [v Hv]; [lia|]. rewrite Hv.
  f_equal. unfold snapshot_lines.
  rewrite (take_S_r _ k (json_dumps v ++ newline)); [done|].
  by rewrite list_lookup_fmap, Hv.
Qed.

Lemma write_steps_closed (json_dumps : value → string) (cache : list value)
    (m : nat) :
  (length cache + 2 ≤ m)%nat →
  Nat.iter m (write_step json_dumps cache) WReady =
    WClosed (snapshot_lines json_dumps cache).
Proof.
  intros Hm. replace m with ((m - (length cache + 2)) + S (S (length cache)))
    by lia.
  generalize (m - (length cache + 2)). intros j.
  induction j as [|j IH].
  - change (0 + S (S (length cache))) with (S (S (length cache))).
    rewrite Nat.iter_succ, write_steps_open by done. simpl.
    rewrite lookup_ge_None_2 by done.
    rewrite take_ge; [done|]. unfold snapshot_lines. by rewrite length_map.
  - change (S j + S (S (length cache))) with (S (j + S (S (length cache)))).
    by rewrite Nat.iter_succ, IH.
Qed.

Lemma write_steps_from_closed (json_dumps : value → string)
    (cache : list value) (out : list string) (m : nat) :
  Nat.iter m (write_step json_dumps cache) (WClosed out) = WClosed out.
Proof. induction m as [|m IH]; [done|]. by rewrite Nat.iter_succ, IH. Qed.

Lemma run_thread_spec (json_dumps : value → string) (n tid : nat) (w : World)
    (t : wstate) :
  threads w !! tid = Some t →
  run_thread json_dumps n tid w =
    set_threads
      (<[tid := Nat.iter n (write_step json_dumps (DATA_CACHE w)) t]> (threads w))
      w.
Proof.
  intros Ht. pose proof (lookup_lt_Some _ _ _ Ht) as Hlt.
  unfold run_thread. induction n as [|n IH].
  - simpl. rewrite list_insert_id by done. by destruct w.
  - rewrite Nat.iter_succ, IH. unfold thread_step. simpl.
    rewrite list_lookup_insert_eq by done.
    unfold set_threads. simpl. by rewrite list_insert_insert_eq.
Qed.

Lemma run_each_cons (json_dumps : value → string) (tid : nat)
    (tids : list nat) (w : World) :
  run_each json_dumps (tid :: tids) w =
    run_each json_dumps tids
      (run_thread json_dumps (length (DATA_CACHE w) + 2) tid w).
Proof. done. Qed.

Lemma run_each_ready (json_dumps : value → string) (tids : list nat) :
  ∀ w,
    NoDup tids →
    (∀ tid, tid ∈ tids → threads w !! tid = Some WReady) →
    DATA_CACHE (run_each json_dumps tids w) = DATA_CACHE w ∧
    ticks (run_each json_dumps tids w) = ticks w ∧
    trace (run_each json_dumps tids w) = trace w ∧
    length (threads (run_each json_dumps tids w)) = length (threads w) ∧
    (∀ tid, tid ∈ tids →
            threads (run_each json_dumps tids w) !! tid =
              Some (WClosed (snapshot_lines json_dumps (DATA_CACHE w)))) ∧
    (∀ j, j ∉ tids →
          threads (run_each json_dumps tids w) !! j = threads w !! j).
Proof.
  induction tids as [|tid tids IH]; intros w Hnd Hready.
  - split_and!; try done. intros tid Htid. set_solver.
  - apply NoDup_cons in Hnd as [Hfresh Hnd].
    assert (threads w !! tid = Some WReady) as Ht.
    { apply Hready, elem_of_cons. by left. }
    pose proof (lookup_lt_Some _ _ _ Ht) as Hlt.
    rewrite !run_each_cons.
    rewrite (run_thread_spec json_dumps _ tid w WReady Ht).
    rewrite write_steps_closed by done.
    set (w1 := set_threads _ w).
    destruct (IH w1 Hnd) as (Hc & Hti & Htr & Hlen & Hdone & Hrest).
    { intros j Hj. unfold w1. simpl. rewrite list_lookup_insert_ne.
      - apply Hready, elem_of_cons. by right.
      - intros ->. done. }
    split_and!; try done.
    + rewrite Hlen. unfold w1. simpl. apply length_insert.
    + intros j [->|Hj]%elem_of_cons.
      * rewrite (Hrest tid Hfresh). unfold w1. simpl.
        by apply list_lookup_insert_eq.
      * by apply Hdone.
    + intros j [Hne Hj]%not_elem_of_cons. rewrite (Hrest j Hj).
      unfold w1. simpl. by apply list_lookup_insert_ne.
Qed.

(** C5, as the code has it.  Nothing is coalesced: [k] calls of
    [save_data_async] start [k] threads, whatever is already under way, so
    the number of writes in flight grows by [k]; and when each of the new
    threads is let run, on a store that stays as it is, each performs a
    whole write of its own, so [k] further writes are done. *)
Theorem every_signal_starts_a_writer (json_dumps : value → string) (k : nat)
    (w : World) :
  ∃ w',
    signals k w = (Returned (), w') ∧
    threads w' = (threads w ++ replicate k WReady)%list ∧
    in_flight w' = in_flight w + k ∧
    writes_done w' = writes_done w ∧
    threads (run_each json_dumps (seq (length (threads w)) k) w') =
      (threads w ++
       replicate k (WClosed (snapshot_lines json_dumps (DATA_CACHE w))))%list ∧
    writes_done (run_each json_dumps (seq (length (threads w)) k) w') =
      writes_done w + k ∧
    in_flight (run_each json_dumps (seq (length (threads w)) k) w') =
      in_flight w.
Proof.
  eexists. split; [apply signals_spec|]. simpl. split; [done|].
  destruct (filter_replicate_ready k) as [Hf Ht].
  split; [|split].
  { unfold in_flight. simpl. by rewrite filter_app, length_app, Hf,
      length_replicate. }
  { unfold writes_done. simpl. by rewrite filter_app, length_app, Ht,
      Nat.add_0_r. }
  set (w' := mkWorld _ _ _ _).
  set (snap := snapshot_lines json_dumps (DATA_CACHE w)).
  destruct (run_each_ready json_dumps (seq (length (threads w)) k) w')
    as (_ & _ & _ & Hlen & Hdone & Hrest).
  { apply NoDup_seq. }
  { intros tid [Hlo Hhi]%elem_of_seq. unfold w'. simpl.
    rewrite lookup_app_r by lia. apply lookup_replicate_2. lia. }
  assert (threads (run_each json_dumps (seq (length (threads w)) k) w')
          = (threads w ++ replicate k (WClosed snap))%list) as Hall.
  { apply list_eq. intros j.
    destruct (decide (j ∈ seq (length (threads w)) k)) as [Hj|Hj].
    - rewrite (Hdone j Hj). apply elem_of_seq in Hj as [Hlo Hhi].
      rewrite lookup_app_r by lia. symmetry. apply lookup_replicate_2. lia.
    - rewrite (Hrest j Hj). unfold w'. simpl. rewrite elem_of_seq in Hj.
      destruct (decide (j < length (threads w))) as [Hlt|Hge].
      + by rewrite !lookup_app_l.
      + rewrite !lookup_app_r by lia.
        rewrite !(proj1 (lookup_replicate_None _ _ _)); [done| |]; lia. }
  split; [done|].
  unfold writes_done, in_flight. rewrite Hall, !filter_app, !length_app.
  assert (∀ n, filter (λ t, is_finished t = true) (replicate n (WClosed snap))
               = replicate n (WClosed snap) ∧
               filter (λ t, is_finished t = false) (replicate n (WClosed snap))
               = []) as Hcl.
  { intros n. induction n as [|n [IH1 IH2]]; [done|]. simpl.
    rewrite !filter_cons, IH1, IH2. by repeat case_decide. }
  destruct (Hcl k) as [-> ->]. rewrite length_replicate. simpl. lia.
Qed.

(** C5, as stated, fails: with one write under way two calls of
    [save_data_async] leave three writes in flight, and in the end three
    writes have been done, two of them further ones. *)
Lemma two_signals_two_more_writes :
  in_flight busy_world = 1 ∧
  writes_done busy_world = 0 ∧
  in_flight (signals 2 busy_world).2 = 3 ∧
  writes_done (run_each id_line [0; 1; 2] (signals 2 busy_world).2) = 3.
Proof. by vm_compute. Qed.

(** ** The file during a write *)

(** C6, as the code has it.  A write is done in place, through the
    buffers of the file object.  While the store stays as it is and no
    other thread writes: from the [open] until the close, after [k] turns
    of the loop, the file is empty or holds the beginning of a stream with
    at most the first [k] lines of the new snapshot, followed by a read
    error; so it is not the new snapshot (of a store that has records), and
    it is no longer the old one (if that had lines).  Once the thread has
    run to its end the file is the whole new snapshot. *)
Theorem write_is_in_place (json_dumps : value → string) (cache : list value)
    (old : option text_file) :
  (∀ k file,
     (k ≤ length cache)%nat →
     left_on_disk old (Nat.iter (S k) (write_step json_dumps cache) WReady)
       file →
     ∃ f, file = Some f ∧
          lines_read f `prefix_of` take k (snapshot_lines json_dumps cache) ∧
          (read_error f = None → lines_read f = [])) ∧
  (∀ k file,
     (k ≤ length cache)%nat → cache ≠ [] →
     left_on_disk old (Nat.iter (S k) (write_step json_dumps cache) WReady)
       file →
     file ≠ Some (whole_file (snapshot_lines json_dumps cache))) ∧
  (∀ k file lines,
     (k ≤ length cache)%nat → lines ≠ [] → old = Some (whole_file lines) →
     left_on_disk old (Nat.iter (S k) (write_step json_dumps cache) WReady)
       file →
     file ≠ old) ∧
  (∀ m file,
     (length cache + 2 ≤ m)%nat →
     left_on_disk old (Nat.iter m (write_step json_dumps cache) WReady) file →
     file = Some (whole_file (snapshot_lines json_dumps cache))).
Proof.
  split_and!.
  - intros k file Hk. by rewrite write_steps_open.
  - intros k file Hk Hne. rewrite write_steps_open by done.
    intros (f & -> & _ & Hempty) [= ->].
    specialize (Hempty eq_refl). simpl in Hempty.
    by destruct cache.
  - intros k file lines Hk Hne ->. rewrite write_steps_open by done.
    intros (f & -> & _ & Hempty) [= ->].
    by specialize (Hempty eq_refl).
  - intros m file Hm. by rewrite write_steps_closed.
Qed.

(** C6, as stated, fails: a write of the three sample records over a file
    of one old line, cut short after the [open] and one turn of the loop,
    can leave the file empty, the line still being in the buffers; that is
    neither the old file nor the new snapshot. *)
Lemma interrupted_write_leaves_part :
  left_on_disk (Some (whole_file ["old" ++ newline]))
    (Nat.iter 2 (write_step id_line sample_cache) WReady)
    (Some (whole_file [])) ∧
  snapshot_lines id_line sample_cache
    = ["t1" ++ newline; "t2" ++ newline; "t3" ++ newline] ∧
  Some (whole_file []) ≠ Some (whole_file ["old" ++ newline]) ∧
  Some (whole_file []) ≠ Some (whole_file (snapshot_lines id_line sample_cache)).
Proof.
  split_and!; [|by vm_compute..].
  exists (whole_file []). split_and!; [done|apply prefix_nil|done].
Qed.

(** From the file that write has left [load_data_once] loads nothing. *)
Example interrupted_write_empties :
  DATA_CACHE (load_data_once sample_loads (Some (whole_file []))
                sample_world).2 = [].
Proof. by vm_compute. Qed.

(** * Further properties of the handlers *)

(** ** Filtering reads only *)

Lemma getitem_read_only (p : nat) (key : string) (w : World) :
  (getitem p key w).2 = w.
Proof.
  unfold getitem, deref, bind, lift.
  by destruct (DATA_CACHE w !! p).
Qed.

Lemma date_cond_read_only (date : string) (p : nat) (w : World) :
  (date_cond date p w).2 = w.
Proof.
  unfold date_cond, bind, lift.
  pose proof (getitem_read_only p "processing_date" w) as H.
  by destruct (getitem p "processing_date" w) as [[x|e] w0]; simpl in *; subst.
Qed.

Lemma lower_cond_read_only (key arg : string) (p : nat) (w : World) :
  (lower_cond key arg p w).2 = w.
Proof.
  unfold lower_cond, bind, lift, ret.
  pose proof (getitem_read_only p key w) as H.
  destruct (getitem p key w) as [[x|e] w0]; simpl in *; subst; [|done].
  by destruct (lower_of x).
Qed.

Lemma comprehension_read_only (cond : nat → M bool) (data : list nat) :
  (∀ p w, (cond p w).2 = w) → ∀ w, (comprehension cond data w).2 = w.
Proof.
  intros Hc. induction data as [|p data IH]; intros w; [done|].
  simpl. unfold bind. pose proof (Hc p w) as Hp.
  destruct (cond p w) as [[b|e] w0]; simpl in *; subst; [|done].
  pose proof (IH w) as Hrest.
  by destruct (comprehension cond data w) as [[kept|e] w1]; simpl in *; subst.
Qed.

Lemma filter_by_read_only (arg : option string) (cond : string → nat → M bool)
    (data : list nat) (w : World) :
  (∀ s p w, (cond s p w).2 = w) → (filter_by arg cond data w).2 = w.
Proof.
  intros Hc. unfold filter_by. destruct arg as [s|]; [|done].
  destruct (truthy (Some s)); [|done].
  apply comprehension_read_only. apply Hc.
Qed.

(** X1. Filtering reads only: on every store, of payment records or not,
    and whether the three statements return or raise, the world after them
    is the world before them. *)
Theorem filtered_read_only (date psp_name status : option string) (w : World) :
  (filtered date psp_name status w).2 = w.
Proof.
  unfold filtered, bind.
  pose proof (filter_by_read_only date date_cond
                (seq 0 (length (DATA_CACHE w))) w date_cond_read_only) as H1.
  destruct (filter_by date date_cond _ w) as [[l1|e] w1]; simpl in *; subst;
    [|done].
  pose proof (filter_by_read_only psp_name (lower_cond "psp_name") l1 w
                (lower_cond_read_only "psp_name")) as H2.
  destruct (filter_by psp_name _ l1 w) as [[l2|e] w2]; simpl in *; subst;
    [|done].
  apply filter_by_read_only. apply lower_cond_read_only.
Qed.

(** ** Records that miss a key *)

Lemma comprehension_raises (cond : nat → M bool) (w : World)
    (pre post : list nat) (q : nat) (e : exn) :
  (∀ p, p ∈ pre → ∃ b, cond p w = (Returned b, w)) →
  cond q w = (Raised e, w) →
  comprehension cond (pre ++ q :: post) w = (Raised e, w).
Proof.
  intros Hpre Hq. induction pre as [|p pre IH]; simpl; unfold bind.
  - by rewrite Hq.
  - destruct (Hpre p) as [b Hb]; [apply elem_of_cons; by left|].
    rewrite Hb, IH; [done|].
    intros p' Hp'. apply Hpre, elem_of_cons. by right.
Qed.

Lemma filter_by_on (s : string) (cond : string → nat → M bool)
    (data : list nat) :
  truthy (Some s) = true →
  filter_by (Some s) cond data = comprehension (cond s) data.
Proof. intros H. unfold filter_by. by rewrite H. Qed.

(** X2. A date filter meets a dictionary without [processing_date]: when
    the records before it have a string there, [get_payments] raises
    [KeyError('processing_date')], whatever the other arguments, and
    leaves the world as it was: no record is advanced and no thread is
    started, also for the records that come before the faulty one. *)
Theorem get_payments_missing_date (O : Oracle) (date : string)
    (page limit : Z) (psp_name status : option string) (w : World) (i : nat)
    (d : gmap string value) :
  truthy (Some date) = true →
  DATA_CACHE w !! i = Some (VDict d) →
  d !! "processing_date" = None →
  (∀ j v, j < i → DATA_CACHE w !! j = Some v →
          is_Some (str_field v "processing_date")) →
  get_payments O (Some date) page limit psp_name status w =
    (Raised (KeyError "processing_date"), w).
Proof.
  intros Hdate Hi Hmiss Hbefore.
  pose proof (lookup_lt_Some _ _ _ Hi) as Hlt.
  assert (filtered (Some date) psp_name status w =
            (Raised (KeyError "processing_date"), w)) as Hf.
  { unfold filtered, bind. rewrite (filter_by_on date) by done.
    replace (length (DATA_CACHE w)) with (i + S (length (DATA_CACHE w) - S i))
      by lia.
    rewrite seq_app, <- cons_seq. change (0 + i) with i.
    rewrite (comprehension_raises _ w _ _ i (KeyError "processing_date"));
      [done| |].
    - intros p [_ Hp]%elem_of_seq.
      destruct (lookup_lt_is_Some_2 (DATA_CACHE w) p) as [v Hv]; [lia|].
      destruct (Hbefore p v) as [s Hs]; [lia|done|].
      eexists. unfold date_cond, bind.
      by rewrite (getitem_str w p v "processing_date" s Hv Hs).
    - unfold date_cond, getitem, deref, bind, lift. rewrite Hi. simpl.
      by rewrite Hmiss. }
  unfold get_payments, bind. by rewrite Hf.
Qed.

Lemma get_payments_missing_date_witness :
  get_payments eager (Some "2024") 1 10 None None broken_world =
    (Raised (KeyError "processing_date"), broken_world).
Proof.
  apply (get_payments_missing_date eager "2024" 1 10 None None broken_world 1
           (<["status" := VStr "pending"]> ∅)).
  - reflexivity.
  - reflexivity.
  - reflexivity.
  - intros [|j] v Hj Hv; [|lia]. injection Hv as <-. by eexists.
Defined.

Lemma find_loop_passes (O : Oracle) (txn_id : string) (w : World)
    (refs rest : list nat) :
  (∀ p, p ∈ refs →
        ∃ v s, DATA_CACHE w !! p = Some v ∧ str_field v "id" = Some s ∧
               s ≠ txn_id) →
  find_loop O txn_id (refs ++ rest) w = find_loop O txn_id rest w.
Proof.
  induction refs as [|p refs IH]; intros Hmiss; [done|].
  destruct (Hmiss p) as (v & s & Hv & Hs & Hne); [apply elem_of_cons; by left|].
  simpl. unfold bind at 1. rewrite (getitem_str w p v "id" s Hv Hs).
  rewrite py_eq_str_false by congruence.
  apply IH. intros q Hq. apply Hmiss, elem_of_cons. by right.
Qed.

(** X3. [get_payment] walks the store from the front: a dictionary without
    [id], met before any record with the id asked for, makes it raise
    [KeyError('id')] and leave the world as it was, even when a record
    with that id is stored further on. *)
Theorem get_payment_missing_id (O : Oracle) (txn_id : string) (w : World)
    (i : nat) (d : gmap string value) :
  DATA_CACHE w !! i = Some (VDict d) →
  d !! "id" = None →
  (∀ j v, j < i → DATA_CACHE w !! j = Some v →
          ∃ s, str_field v "id" = Some s ∧ s ≠ txn_id) →
  get_payment O txn_id w = (Raised (KeyError "id"), w).
Proof.
  intros Hi Hmiss Hbefore.
  pose proof (lookup_lt_Some _ _ _ Hi) as Hlt.
  unfold get_payment.
  replace (length (DATA_CACHE w)) with (i + S (length (DATA_CACHE w) - S i))
    by lia.
  rewrite seq_app, <- cons_seq. change (0 + i) with i.
  rewrite find_loop_passes.
  - simpl. unfold bind, getitem, deref, bind, lift. rewrite Hi. simpl.
    by rewrite Hmiss.
  - intros p [_ Hp]%elem_of_seq.
    destruct (lookup_lt_is_Some_2 (DATA_CACHE w) p) as [v Hv]; [lia|].
    destruct (Hbefore p v) as (s & Hs & Hne); [lia|done|]. by exists v, s.
Qed.

Lemma get_payment_missing_id_witness :
  get_payment eager "t3" broken_world = (Raised (KeyError "id"), broken_world).
Proof.
  apply (get_payment_missing_id eager "t3" broken_world 1
           (<["status" := VStr "pending"]> ∅)).
  - reflexivity.
  - reflexivity.
  - intros [|j] v Hj Hv; [|lia]. injection Hv as <-. by exists "t1".
Defined.

(** ** The arguments of the filters *)

Lemma lower_truthy (a b : string) :
  lower a = lower b → truthy (Some a) = truthy (Some b).
Proof. by destruct a, b. Qed.

Lemma filter_by_nocase (key a b : string) :
  lower a = lower b →
  filter_by (Some a) (lower_cond key) = filter_by (Some b) (lower_cond key).
Proof.
  intros H. unfold filter_by. rewrite (lower_truthy a b H).
  unfold lower_cond. by rewrite H.
Qed.

(** X4. The case of the [psp_name] and [status] arguments does not
    matter: on every store, two calls of [get_payments] whose [psp_name]
    arguments, and whose [status] arguments, are equal once lowered give
    the same answer and leave the same world. *)
Theorem get_payments_nocase (O : Oracle) (date : option string)
    (page limit : Z) (psp1 psp2 st1 st2 : string) (w : World) :
  lower psp1 = lower psp2 →
  lower st1 = lower st2 →
  get_payments O date page limit (Some psp1) (Some st1) w =
    get_payments O date page limit (Some psp2) (Some st2) w.
Proof.
  intros Hp Hs. unfold get_payments, filtered.
  by rewrite (filter_by_nocase "psp_name" psp1 psp2 Hp),
    (filter_by_nocase "status" st1 st2 Hs).
Qed.

Lemma get_payments_nocase_witness :
  get_payments eager None 1 10 (Some "STRIPE") (Some "Pending") sample_world =
    get_payments eager None 1 10 (Some "stripe") (Some "PENDING") sample_world.
Proof.
  apply (get_payments_nocase eager None 1 10 "STRIPE" "stripe" "Pending"
           "PENDING" sample_world); reflexivity.
Defined.

Lemma prefix_trans (a b c : string) :
  String.prefix a b = true → String.prefix b c = true →
  String.prefix a c = true.
Proof.
  revert b c. induction a as [|x a IH]; intros b c Hab Hbc;
    destruct b as [|y b], c as [|z c]; simpl in *; try done.
  destruct (ascii_dec x y) as [->|]; [|done].
  destruct (ascii_dec y z) as [->|]; [|done].
  by apply IH with b.
Qed.

Lemma applied_date_weaker (d1 d2 : string) (v : value) :
  String.prefix d1 d2 = true →
  applied (Some d2) date_ok v = true → applied (Some d1) date_ok v = true.
Proof.
  intros Hpre. unfold applied, date_ok.
  destruct d1 as [|x d1]; [done|]. destruct d2 as [|y d2]; [by simpl in *|].
  unfold truthy. destruct (str_field v "processing_date") as [s|]; [|done].
  by apply prefix_trans.
Qed.

(** X5. A longer date selects less: on a store of payment records, when
    [date1] is a prefix of [date2], every record that [get_payments] keeps
    for [date2] it also keeps for [date1], the other two filters being the
    same. *)
Theorem longer_date_selects_less (date1 date2 : string)
    (psp_name status : option string) (w : World) :
  Forall is_payment (DATA_CACHE w) →
  String.prefix date1 date2 = true →
  ∃ refs1 refs2,
    filtered (Some date1) psp_name status w = (Returned refs1, w) ∧
    filtered (Some date2) psp_name status w = (Returned refs2, w) ∧
    refs2 ⊆ refs1.
Proof.
  intros Hall Hpre. eexists _, _.
  split; [by apply filtered_spec|]. split; [by apply filtered_spec|].
  intros i. rewrite !list_elem_of_filter, !test_at_true.
  intros (H3 & H2 & (v & Hv & H1) & Hseq). split_and!; try done.
  exists v. split; [done|]. by apply applied_date_weaker with date2.
Qed.

Lemma longer_date_selects_less_witness :
  ∃ refs1 refs2,
    filtered (Some "2024") None None sample_world
      = (Returned refs1, sample_world) ∧
    filtered (Some "2024-01") None None sample_world
      = (Returned refs2, sample_world) ∧
    refs2 ⊆ refs1.
Proof.
  apply (longer_date_selects_less "2024" "2024-01" None None sample_world);
    [apply sample_cache_payments | reflexivity].
Defined.

(** ** What every request keeps *)

Lemma evolves_refl (v : value) : evolves v v.
Proof. unfold evolves. by split_and!; [..|left]. Qed.

Lemma evolves_trans (a b c : value) : evolves a b → evolves b c → evolves a c.
Proof.
  intros (Hi1 & Hd1 & Hp1 & Hs1) (Hi2 & Hd2 & Hp2 & Hs2). unfold evolves.
  split_and!; try congruence.
  destruct Hs1 as [Hs1|[Hs1 Hs1']], Hs2 as [Hs2|[Hs2 Hs2']].
  - left. congruence.
  - right. split; [congruence|done].
  - right. split; [done|]. by rewrite Hs2.
  - destruct Hs1'; congruence.
Qed.

Lemma store_evolves_refl (l : list value) : Forall2 evolves l l.
Proof.
  apply Forall_Forall2_diag, Forall_forall. intros v _. apply evolves_refl.
Qed.

Lemma store_evolves_trans (l k m : list value) :
  Forall2 evolves l k → Forall2 evolves k m → Forall2 evolves l m.
Proof. apply Forall2_trans, evolves_trans. Qed.

(** One call of [maybe_update_status] on a store of payment records. *)
Lemma simulate_store (O : Oracle) (w : World) (p : nat) :
  Forall is_payment (DATA_CACHE w) → p < length (DATA_CACHE w) →
  ∃ w1,
    maybe_update_status O p w = (Returned p, w1) ∧
    Forall is_payment (DATA_CACHE w1) ∧
    Forall2 evolves (DATA_CACHE w) (DATA_CACHE w1) ∧
    threads w1 = threads w.
Proof.
  intros Hall Hlt.
  destruct (lookup_lt_is_Some_2 (DATA_CACHE w) p Hlt) as [v Hv].
  pose proof (Forall_lookup_1 _ _ _ _ Hall Hv) as Hpay.
  destruct v as [| | | | | |d];
    try (destruct Hpay as ([? ?] & _); discriminate).
  destruct (Hpay) as (Hi & Hd & Hp & [s Hs]).
  assert (d !! "status" = Some (VStr s)) as Hst.
  { unfold str_field in Hs. destruct (d !! "status") as [[]|]; congruence. }
  rewrite (maybe_update_status_eq O w p d _ Hv Hst).
  destruct (advances O (ticks w) (VStr s)) eqn:Ea.
  - eexists. split; [done|]. simpl.
    apply andb_true_iff in Ea as [Ep _]. apply py_eq_str_iff in Ep.
    injection Ep as ->.
    split_and!; [|rewrite <- (list_insert_id _ _ _ Hv) at 1|done].
    + apply Forall_insert; [done|]. by apply is_payment_advanced.
    + apply Forall2_insert; [apply store_evolves_refl|].
      unfold evolves. rewrite !str_field_advanced by done.
      split_and!; try done. right. split; [done|].
      unfold str_field at 1 2. rewrite advanced_status.
      destruct (chosen_cases O (1 + ticks w)) as [-> | ->]; auto.
  - exists (if py_eq (VStr s) (VStr "pending")
            then tick (emit (EvSimulate p) w) else emit (EvSimulate p) w).
    split; [done|].
    destruct (py_eq (VStr s) (VStr "pending")); simpl;
      (split_and!; [done|apply store_evolves_refl|done]).
Qed.

Lemma getitem_payment (w : World) (p : nat) (key : string) :
  Forall is_payment (DATA_CACHE w) → p < length (DATA_CACHE w) →
  key = "id" ∨ key = "status" →
  ∃ s, getitem p key w = (Returned (VStr s), w).
Proof.
  intros Hall Hlt Hkey.
  destruct (lookup_lt_is_Some_2 (DATA_CACHE w) p Hlt) as [v Hv].
  destruct (Forall_lookup_1 _ _ _ _ Hall Hv) as ([i Hi] & _ & _ & [s Hs]).
  destruct Hkey as [-> | ->]; eexists; by eapply getitem_str.
Qed.

Lemma update_loop_evolves (O : Oracle) (data : list nat) :
  ∀ (acc : bool) (w : World),
    Forall is_payment (DATA_CACHE w) →
    (∀ p, p ∈ data → p < length (DATA_CACHE w)) →
    ∃ b w',
      update_loop O data acc w = (Returned b, w') ∧
      Forall is_payment (DATA_CACHE w') ∧
      Forall2 evolves (DATA_CACHE w) (DATA_CACHE w') ∧
      threads w' = threads w.
Proof.
  induction data as [|p data IH]; intros acc w Hall Hlt.
  - exists acc, w. split_and!; try done. apply store_evolves_refl.
  - assert (p < length (DATA_CACHE w)) as Hp by (apply Hlt, elem_of_cons; by left).
    destruct (getitem_payment w p "status" Hall Hp) as [s Hget]; [by right|].
    destruct (simulate_store O w p Hall Hp) as (w1 & Hrun & Hall1 & Hev1 & Ht1).
    pose proof (Forall2_length _ _ _ Hev1) as Hlen.
    destruct (getitem_payment w1 p "status" Hall1) as [s1 Hget1];
      [lia|by right|].
    destruct (IH (if py_eq (VStr s1) (VStr s) then acc else true) w1 Hall1)
      as (b & w' & Hloop & Hall' & Hev' & Ht').
    { intros q Hq. rewrite <- Hlen. apply Hlt, elem_of_cons. by right. }
    exists b, w'. split_and!; try done.
    + simpl. unfold bind. by rewrite Hget, Hrun, Hget1.
    + by apply store_evolves_trans with (DATA_CACHE w1).
    + congruence.
Qed.

Lemma find_loop_evolves (O : Oracle) (txn_id : string) (refs : list nat) :
  ∀ w,
    Forall is_payment (DATA_CACHE w) →
    (∀ p, p ∈ refs → p < length (DATA_CACHE w)) →
    Forall is_payment (DATA_CACHE (find_loop O txn_id refs w).2) ∧
    Forall2 evolves (DATA_CACHE w) (DATA_CACHE (find_loop O txn_id refs w).2) ∧
    (threads (find_loop O txn_id refs w).2 = threads w ∨
     threads (find_loop O txn_id refs w).2 = (threads w ++ [WReady])%list).
Proof.
  induction refs as [|p refs IH]; intros w Hall Hlt.
  - simpl. split_and!; [done|apply store_evolves_refl|by left].
  - assert (p < length (DATA_CACHE w)) as Hp by (apply Hlt, elem_of_cons; by left).
    destruct (getitem_payment w p "id" Hall Hp) as [i Hid]; [by left|].
    destruct (py_eq (VStr i) (VStr txn_id)) eqn:Ei.
    + destruct (getitem_payment w p "status" Hall Hp) as [s Hget]; [by right|].
      destruct (simulate_store O w p Hall Hp)
        as (w1 & Hrun & Hall1 & Hev1 & Ht1).
      pose proof (Forall2_length _ _ _ Hev1) as Hlen.
      destruct (getitem_payment w1 p "status" Hall1) as [s1 Hget1];
        [lia|by right|].
      assert (find_loop O txn_id (p :: refs) w =
                (Returned p, persist_if (negb (py_eq (VStr s1) (VStr s))) w1))
        as ->.
      { simpl. unfold bind. rewrite Hid, Ei, Hget, Hrun, Hget1. simpl.
        by destruct (String.eqb s1 s). }
      simpl. rewrite persist_if_cache. split_and!; [done|done|].
      destruct (negb _); simpl; rewrite Ht1; auto.
    + assert (find_loop O txn_id (p :: refs) w = find_loop O txn_id refs w)
        as ->.
      { simpl. unfold bind at 1. by rewrite Hid, Ei. }
      apply IH; [done|]. intros q Hq. apply Hlt, elem_of_cons. by right.
Qed.

Lemma serve_evolves (O : Oracle) (r : request) (w : World) :
  Forall is_payment (DATA_CACHE w) →
  Forall is_payment (DATA_CACHE (serve O r w)) ∧
  Forall2 evolves (DATA_CACHE w) (DATA_CACHE (serve O r w)) ∧
  (threads (serve O r w) = threads w ∨
   threads (serve O r w) = (threads w ++ [WReady])%list).
Proof.
  intros Hall. destruct r as [date page limit psp_name status|txn_id]; simpl.
  - destruct (get_payments_spec O date page limit psp_name status w Hall)
      as (refs & w1 & records & Hf & Hloop & Ht1 & _ & _ & Hrun).
    destruct (filtered_refs date psp_name status w Hall)
      as (refs' & Hf' & _ & Hlt).
    rewrite Hf in Hf'. injection Hf' as <-.
    destruct (update_loop_evolves O refs false w Hall Hlt)
      as (b & w1' & Hloop' & Hall1 & Hev1 & _).
    rewrite Hloop in Hloop'. injection Hloop' as _ <-.
    rewrite Hrun. simpl. rewrite persist_if_cache. split_and!; try done.
    unfold persist_if. destruct (any_changed w w1 refs); simpl;
      rewrite Ht1; auto.
  - unfold get_payment. apply find_loop_evolves; [done|].
    intros p [_ Hp]%elem_of_seq. lia.
Qed.

(** X6. Through any sequence of requests, answered or refused, a store of
    payment records stays one and keeps its length; every record keeps its
    [id], [processing_date] and [psp_name]; the status of every record is
    as at the start or has moved from ["pending"] to ["approved"] or
    ["declined"]; and at most one thread per request has been started. *)
Theorem requests_keep_the_store (O : Oracle) (rs : list request) (w : World) :
  Forall is_payment (DATA_CACHE w) →
  Forall is_payment (DATA_CACHE (serve_all O rs w)) ∧
  Forall2 evolves (DATA_CACHE w) (DATA_CACHE (serve_all O rs w)) ∧
  length (DATA_CACHE (serve_all O rs w)) = length (DATA_CACHE w) ∧
  (length (threads (serve_all O rs w)) ≤ length (threads w) + length rs)%nat.
Proof.
  revert w. induction rs as [|r rs IH]; intros w Hall.
  - simpl. split_and!; [done|apply store_evolves_refl|done|lia].
  - destruct (serve_evolves O r w Hall) as (Hall1 & Hev1 & Hth1).
    destruct (IH (serve O r w) Hall1) as (Hall' & Hev' & Hlen' & Hth').
    change (serve_all O (r :: rs) w) with (serve_all O rs (serve O r w)).
    split_and!.
    + done.
    + by apply store_evolves_trans with (DATA_CACHE (serve O r w)).
    + rewrite Hlen'. symmetry. by eapply Forall2_length.
    + simpl. destruct Hth1 as [Hth1|Hth1]; rewrite Hth1 in Hth';
        rewrite ?length_app in Hth'; simpl in Hth'; lia.
Qed.

Lemma requests_keep_the_store_witness :
  Forall is_payment
    (DATA_CACHE (serve_all eager
       [GetPayment "t3"; ListPayments None 5 10 None (Some "pending");
        GetPayment "t9"] sample_world)) ∧
  Forall2 evolves (DATA_CACHE sample_world)
    (DATA_CACHE (serve_all eager
       [GetPayment "t3"; ListPayments None 5 10 None (Some "pending");
        GetPayment "t9"] sample_world)) ∧
  length (DATA_CACHE (serve_all eager
       [GetPayment "t3"; ListPayments None 5 10 None (Some "pending");
        GetPayment "t9"] sample_world)) = length (DATA_CACHE sample_world) ∧
  (length (threads (serve_all eager
       [GetPayment "t3"; ListPayments None 5 10 None (Some "pending");
        GetPayment "t9"] sample_world))
    ≤ length (threads sample_world) +
      length [GetPayment "t3"; ListPayments None 5 10 None (Some "pending");
              GetPayment "t9"])%nat.
Proof.
  apply (requests_keep_the_store eager
           [GetPayment "t3"; ListPayments None 5 10 None (Some "pending");
            GetPayment "t9"] sample_world).
  apply sample_cache_payments.
Defined.

(** ** Loading, writing and loading again *)

Lemma load_data_once_some (json_loads : string → outcome value)
    (lines : list string) (w : World) :
  all_caught json_loads lines →
  ∃ w',
    load_data_once json_loads (Some (whole_file lines)) w = (Returned (), w') ∧
    DATA_CACHE w' = omap (decoded json_loads) lines ∧
    trace w' = (trace w ++ omap (skipped json_loads) lines ++
                [EvPrintLoaded (length (DATA_CACHE w'))])%list.
Proof.
  intros Hok.
  destruct (load_lines_spec json_loads lines Hok (set_cache [] w))
    as (w' & Hrun & Hc & Ht & _).
  exists (emit (EvPrintLoaded (length (DATA_CACHE w'))) w').
  unfold load_data_once, bind, modify. simpl. rewrite Hrun. simpl.
  split_and!; try done. rewrite Ht. simpl. by rewrite <- app_assoc.
Qed.

(** A loop that returns has met no line that lets an exception escape. *)
Lemma load_lines_returned (json_loads : string → outcome value)
    (lines : list string) :
  ∀ w w', load_lines json_loads lines w = (Returned (), w') →
          all_caught json_loads lines.
Proof.
  induction lines as [|raw lines IH]; intros w w' Hrun; [constructor|].
  destruct (escaping json_loads raw) as [e|] eqn:Hesc.
  - destruct (load_lines_aborts json_loads [] raw lines e) with w
      as (w1 & Habort & _); [constructor|done|].
    simpl app in Habort. by rewrite Habort in Hrun.
  - destruct (load_line_caught json_loads raw lines w Hesc)
      as (w1 & Hstep & _).
    rewrite Hstep in Hrun. constructor; [done|]. by eapply IH.
Qed.

(** A load that returns has read the file to its end and met no line that
    lets an exception escape. *)
Lemma load_returned (json_loads : string → outcome value) (file : text_file)
    (w w' : World) :
  load_data_once json_loads (Some file) w = (Returned (), w') →
  read_error file = None ∧
  all_caught json_loads (lines_read file) ∧
  DATA_CACHE w' = omap (decoded json_loads) (lines_read file) ∧
  trace w' = (trace w ++ omap (skipped json_loads) (lines_read file) ++
              [EvPrintLoaded (length (DATA_CACHE w'))])%list.
Proof.
  intros Hrun. destruct file as [lines ending].
  assert (all_caught json_loads lines ∧ ending = None) as [Hok ->].
  { unfold load_data_once, bind, modify in Hrun. simpl in Hrun.
    destruct (load_lines json_loads lines (set_cache [] w))
      as [[[]|e] w1] eqn:Hloop; [|done].
    split; [by eapply load_lines_returned|]. by destruct ending. }
  destruct (load_data_once_some json_loads lines w Hok)
    as (w0 & Hrun0 & Hc & Ht).
  unfold whole_file in Hrun0. rewrite Hrun in Hrun0. injection Hrun0 as <-.
  by split_and!.
Qed.

Lemma loaded_or_skipped (json_loads : string → outcome value)
    (lines : list string) :
  all_caught json_loads lines →
  (length (omap (decoded json_loads) lines) +
   length (omap (skipped json_loads) lines))%nat =
  length (filter (λ raw, is_blank raw = false) lines).
Proof.
  induction 1 as [|raw lines Hraw _ IH]; [done|].
  rewrite !omap_cons, filter_cons.
  unfold escaping in Hraw.
  case_decide as Hb; unfold is_blank in Hb;
    unfold decoded at 1, skipped at 1;
    destruct (strip raw) as [|c line]; try done.
  destruct (json_loads (String c line)) as [v|[]]; try done;
    cbn [length]; lia.
Qed.

(** X7. A load that returns has accounted for every line once: the number
    of records in the store plus the number of lines reported as skipped
    is the number of lines that are not blank; blank lines are passed over
    without a message.  (A load returns only when the file reads to its
    end and [json.loads] raises nothing but [JSONDecodeError].) *)
Theorem load_accounts_for_lines (json_loads : string → outcome value)
    (file : text_file) (w w' : World) :
  load_data_once json_loads (Some file) w = (Returned (), w') →
  read_error file = None ∧
  ∃ reported,
    trace w' = (trace w ++ reported ++
                [EvPrintLoaded (length (DATA_CACHE w'))])%list ∧
    (length (DATA_CACHE w') + length reported)%nat =
      length (filter (λ raw, is_blank raw = false) (lines_read file)).
Proof.
  intros (Hend & Hok & Hc & Ht)%load_returned. split; [done|].
  exists (omap (skipped json_loads) (lines_read file)). split; [done|].
  rewrite Hc. by apply loaded_or_skipped.
Qed.

Lemma load_accounts_for_lines_witness :
  read_error (whole_file ["{}"; "{"; "   "; "  {}  "]) = None ∧
  ∃ reported,
    trace (mkWorld [VDict ∅; VDict ∅] 0 []
             [EvPrintSkipping "{"; EvPrintLoaded 2])
      = (trace sample_world ++ reported ++
         [EvPrintLoaded
            (length (DATA_CACHE
               (mkWorld [VDict ∅; VDict ∅] 0 []
                  [EvPrintSkipping "{"; EvPrintLoaded 2])))])%list ∧
    (length (DATA_CACHE
       (mkWorld [VDict ∅; VDict ∅] 0 []
          [EvPrintSkipping "{"; EvPrintLoaded 2])) + length reported)%nat =
      length (filter (λ raw, is_blank raw = false)
                (lines_read (whole_file ["{}"; "{"; "   "; "  {}  "]))).
Proof.
  apply (load_accounts_for_lines sample_loads
           (whole_file ["{}"; "{"; "   "; "  {}  "]) sample_world
           (mkWorld [VDict ∅; VDict ∅] 0 []
              [EvPrintSkipping "{"; EvPrintLoaded 2])).
  by vm_compute.
Defined.

Lemma omap_round_trip (json_loads : string → outcome value)
    (json_dumps : value → string) (cache : list value) :
  round_trips json_loads json_dumps cache →
  omap (decoded json_loads) (snapshot_lines json_dumps cache) = cache.
Proof.
  induction 1 as [|v cache Hv _ IH]; [done|].
  change (snapshot_lines json_dumps (v :: cache))
    with ((json_dumps v ++ newline) :: snapshot_lines json_dumps cache).
  by rewrite omap_cons, Hv, IH.
Qed.

Lemma round_trips_caught (json_loads : string → outcome value)
    (json_dumps : value → string) (cache : list value) :
  round_trips json_loads json_dumps cache →
  all_caught json_loads (snapshot_lines json_dumps cache).
Proof.
  induction 1 as [|v cache Hv _ IH]; [constructor|].
  constructor; [|done]. unfold decoded in Hv. unfold escaping.
  destruct (strip (json_dumps v ++ newline)) as [|c line]; [done|].
  by destruct (json_loads (String c line)).
Qed.

(** X8. After a write that was cut short a start-up never comes up with
    records: whatever a write of the store, alone and on a store that
    stays as it is, has left in the file between its [open] and its close,
    [load_data_once] on that file either raises or returns with an empty
    store. *)
Theorem cut_short_write_loads_nothing (json_loads : string → outcome value)
    (json_dumps : value → string) (cache : list value)
    (old file : option text_file) (k : nat) (w w' : World) :
  (k ≤ length cache)%nat →
  left_on_disk old (Nat.iter (S k) (write_step json_dumps cache) WReady) file →
  load_data_once json_loads file w = (Returned (), w') →
  DATA_CACHE w' = [].
Proof.
  intros Hk. rewrite write_steps_open by done.
  intros (f & -> & _ & Hempty) Hrun.
  destruct (load_returned json_loads f w w' Hrun) as (Hend & _ & Hc & _).
  rewrite Hc, (Hempty Hend). done.
Qed.

Lemma sample_round_trips :
  round_trips (table_loads sample_cache) id_line sample_cache.
Proof. repeat constructor. Qed.

Lemma cut_short_write_loads_nothing_witness :
  DATA_CACHE (mkWorld [] 0 [] [EvPrintLoaded 0]) = [].
Proof.
  apply (cut_short_write_loads_nothing (table_loads sample_cache) id_line
           sample_cache (Some (whole_file ["old"])) (Some (whole_file [])) 2
           sample_world (mkWorld [] 0 [] [EvPrintLoaded 0])).
  - simpl. lia.
  - exists (whole_file []). split_and!; [done|apply prefix_nil|done].
  - by vm_compute.
Defined.

(** X9. A change survives a restart once its write is done: when a
    request on a store of payment records has started a thread and the
    codec gives every record of the store back from its line, that thread,
    let run to its end on the store as the request left it, has written
    lines from which [load_data_once] loads exactly that store. *)
Theorem started_write_restores_store (O : Oracle)
    (json_loads : string → outcome value) (json_dumps : value → string)
    (r : request) (w : World) :
  Forall is_payment (DATA_CACHE w) →
  threads (serve O r w) ≠ threads w →
  round_trips json_loads json_dumps (DATA_CACHE (serve O r w)) →
  ∃ out,
    threads (run_each json_dumps [length (threads w)] (serve O r w))
      !! length (threads w) = Some (WClosed out) ∧
    ∀ w0, ∃ w0',
      load_data_once json_loads (Some (whole_file out)) w0
        = (Returned (), w0') ∧
      DATA_CACHE w0' = DATA_CACHE (serve O r w).
Proof.
  intros Hall Hstarted Hrt.
  destruct (serve_evolves O r w Hall) as (_ & _ & [Hth|Hth]); [done|].
  destruct (run_each_ready json_dumps [length (threads w)] (serve O r w))
    as (_ & _ & _ & _ & Hdone & _).
  { apply NoDup_singleton. }
  { intros tid ->%list_elem_of_singleton. rewrite Hth.
    rewrite lookup_app_r by lia. by rewrite Nat.sub_diag. }
  exists (snapshot_lines json_dumps (DATA_CACHE (serve O r w))).
  split; [apply Hdone; by apply list_elem_of_singleton|].
  intros w0.
  destruct (load_data_once_some json_loads
              (snapshot_lines json_dumps (DATA_CACHE (serve O r w))) w0)
    as (w0' & Hrun & Hc & _); [by eapply round_trips_caught|].
  exists w0'. split; [done|]. rewrite Hc. by apply omap_round_trip.
Qed.

Lemma started_write_restores_store_witness :
  ∃ out,
    threads (run_each id_line [length (threads sample_world)]
               (serve eager (GetPayment "t3") sample_world))
      !! length (threads sample_world) = Some (WClosed out) ∧
    ∀ w0, ∃ w0',
      load_data_once
        (table_loads (DATA_CACHE (serve eager (GetPayment "t3") sample_world)))
        (Some (whole_file out)) w0 = (Returned (), w0') ∧
      DATA_CACHE w0' = DATA_CACHE (serve eager (GetPayment "t3") sample_world).
Proof.
  apply (started_write_restores_store eager
           (table_loads (DATA_CACHE (serve eager (GetPayment "t3") sample_world)))
           id_line (GetPayment "t3") sample_world).
  - apply sample_cache_payments.
  - vm_compute. discriminate.
  - vm_compute. repeat constructor.
Defined.

(** ** Requests that meet settled records only *)

Lemma status_of_field (w : World) (p : nat) (s : string) :
  Forall is_payment (DATA_CACHE w) →
  status_of w p = Some s → field w p "status" = Some (VStr s).
Proof.
  intros Hall Hs. unfold status_of in Hs. unfold field.
  destruct (DATA_CACHE w !! p) as [v|] eqn:Hv; [|done].
  destruct v as [| | | | | |d]; try done.
  unfold str_field in Hs. destruct (d !! "status") as [[]|]; congruence.
Qed.

Lemma simulate_settled (O : Oracle) (w : World) (p : nat) (s : string) :
  Forall is_payment (DATA_CACHE w) →
  status_of w p = Some s → s ≠ "pending" →
  getitem p "status" w = (Returned (VStr s), w) ∧
  maybe_update_status O p w = (Returned p, emit (EvSimulate p) w).
Proof.
  intros Hall Hs Hne. pose proof (status_of_field w p s Hall Hs) as Hf. split.
  - destruct (field_dict w p _ _ Hf) as (d & Hd & Hst).
    unfold getitem, deref, bind, lift. rewrite Hd. simpl. by rewrite Hst.
  - apply maybe_update_status_terminal with (VStr s); [done|congruence].
Qed.

Lemma update_loop_settled (O : Oracle) (data : list nat) :
  ∀ (acc : bool) (w : World),
    Forall is_payment (DATA_CACHE w) →
    (∀ p, p ∈ data → ∃ s, status_of w p = Some s ∧ s ≠ "pending") →
    update_loop O data acc w =
      (Returned acc,
       mkWorld (DATA_CACHE w) (ticks w) (threads w)
               (trace w ++ map EvSimulate data)).
Proof.
  induction data as [|p data IH]; intros acc w Hall Hset.
  - simpl. unfold ret. rewrite app_nil_r. by destruct w.
  - destruct (Hset p) as (s & Hs & Hne); [apply elem_of_cons; by left|].
    destruct (simulate_settled O w p s Hall Hs Hne) as [Hget Hrun].
    assert (getitem p "status" (emit (EvSimulate p) w) =
              (Returned (VStr s), emit (EvSimulate p) w)) as Hget'.
    { by apply (simulate_settled O (emit (EvSimulate p) w) p s). }
    simpl. unfold bind. rewrite Hget, Hrun, Hget', py_eq_str_refl.
    rewrite (IH acc (emit (EvSimulate p) w)); [|done|].
    + simpl. by rewrite <- app_assoc.
    + intros q Hq. apply Hset, elem_of_cons. by right.
Qed.

Lemma lower_pending : lower "pending" = "pending".
Proof. done. Qed.

(** X10. Listing settled payments changes nothing: on a store of payment
    records, [get_payments] with a [status] argument that is not empty and
    is not ["pending"] once lowered leaves the store as it was, starts no
    thread and draws no random number, whatever it answers. *)
Theorem settled_listing_changes_nothing (O : Oracle) (date : option string)
    (page limit : Z) (psp_name : option string) (status : string)
    (w : World) :
  Forall is_payment (DATA_CACHE w) →
  truthy (Some status) = true →
  lower status ≠ "pending" →
  DATA_CACHE (get_payments O date page limit psp_name (Some status) w).2
    = DATA_CACHE w ∧
  threads (get_payments O date page limit psp_name (Some status) w).2
    = threads w ∧
  ticks (get_payments O date page limit psp_name (Some status) w).2
    = ticks w.
Proof.
  intros Hall Htr Hne.
  destruct (get_payments_spec O date page limit psp_name (Some status) w Hall)
    as (refs & w1 & records & Hf & Hloop & _ & _ & _ & Hrun).
  rewrite filtered_spec in Hf by done. injection Hf as Hrefs.
  rewrite update_loop_settled in Hloop; [|done|].
  - injection Hloop as Hb <-. rewrite Hrun, <- Hb. done.
  - intros p Hp. rewrite <- Hrefs in Hp.
    apply list_elem_of_filter in Hp as [Hst _].
    apply test_at_true in Hst as (v & Hv & Hst).
    unfold applied in Hst. rewrite Htr in Hst. unfold same_nocase in Hst.
    destruct (str_field v "status") as [s|] eqn:Hs; [|done].
    exists s. split; [unfold status_of; by rewrite Hv|].
    intros ->. apply String.eqb_eq in Hst. by rewrite lower_pending in Hst.
Qed.

Lemma settled_listing_changes_nothing_witness :
  DATA_CACHE (get_payments eager None 1 10 None (Some "APPROVED")
                sample_world).2 = DATA_CACHE sample_world ∧
  threads (get_payments eager None 1 10 None (Some "APPROVED")
             sample_world).2 = threads sample_world ∧
  ticks (get_payments eager None 1 10 None (Some "APPROVED")
           sample_world).2 = ticks sample_world.
Proof.
  apply (settled_listing_changes_nothing eager None 1 10 None "APPROVED"
           sample_world);
    [apply sample_cache_payments | reflexivity | discriminate].
Defined.

(** X11. Asking for a settled payment changes nothing: on a store of
    payment records, when the first record with the id asked for has a
    status other than ["pending"], [get_payment] returns that record,
    leaves the store as it was, starts no thread and draws no random
    number; its only mark is the call of [maybe_update_status]. *)
Theorem get_payment_settled (O : Oracle) (txn_id : string) (w : World)
    (i : nat) (v : value) (s : string) :
  Forall is_payment (DATA_CACHE w) →
  DATA_CACHE w !! i = Some v →
  str_field v "id" = Some txn_id →
  (∀ j u, j < i → DATA_CACHE w !! j = Some u →
          str_field u "id" ≠ Some txn_id) →
  str_field v "status" = Some s →
  s ≠ "pending" →
  get_payment O txn_id w = (Returned i, emit (EvSimulate i) w).
Proof.
  intros Hall Hv Hid Hfirst Hs Hne.
  pose proof (lookup_lt_Some _ _ _ Hv) as Hlt.
  assert (status_of w i = Some s) as Hst by (unfold status_of; by rewrite Hv).
  destruct (simulate_settled O w i s Hall Hst Hne) as [Hget Hrun].
  assert (getitem i "status" (emit (EvSimulate i) w) =
            (Returned (VStr s), emit (EvSimulate i) w)) as Hget'.
  { by apply (simulate_settled O (emit (EvSimulate i) w) i s). }
  unfold get_payment.
  replace (length (DATA_CACHE w)) with (i + S (length (DATA_CACHE w) - S i))
    by lia.
  rewrite seq_app, <- cons_seq. change (0 + i) with i.
  rewrite find_loop_skip.
  - simpl. unfold bind. rewrite (getitem_str w i v "id" txn_id Hv Hid).
    by rewrite py_eq_str_refl, Hget, Hrun, Hget', py_eq_str_refl.
  - intros p [_ Hp]%elem_of_seq.
    destruct (lookup_lt_is_Some_2 (DATA_CACHE w) p) as [u Hu]; [lia|].
    exists u. split; [done|]. split; [by eapply Forall_lookup_1|].
    apply (Hfirst p u); [lia|done].
Qed.

Lemma get_payment_settled_witness :
  get_payment eager "t2" sample_world =
    (Returned 1, emit (EvSimulate 1) sample_world).
Proof.
  apply (get_payment_settled eager "t2" sample_world 1
           (payment "t2" "2024-01-05" "Adyen" "approved") "approved").
  - apply sample_cache_payments.
  - reflexivity.
  - reflexivity.
  - intros [|j] u Hj Hu; [|lia]. injection Hu as <-. discriminate.
  - reflexivity.
  - discriminate.
Defined.

(** ** A write that overlaps a request *)

Lemma write_steps_from (json_dumps : value → string) (cache : list value)
    (i : nat) (out : list string) (m : nat) :
  (i + m ≤ length cache)%nat →
  Nat.iter m (write_step json_dumps cache) (WOpen i out) =
    WOpen (i + m)
      (out ++ take m (drop i (snapshot_lines json_dumps cache))).
Proof.
  induction m as [|m IH]; intros Hm.
  - simpl. by rewrite Nat.add_0_r, app_nil_r.
  - rewrite Nat.iter_succ, IH by lia. simpl.
    destruct (lookup_lt_is_Some_2 cache (i + m)) as [v Hv]; [lia|].
    rewrite Hv. rewrite Nat.add_succ_r. f_equal.
    rewrite (take_S_r _ m (json_dumps v ++ newline)).
    + by rewrite app_assoc.
    + rewrite lookup_drop. unfold snapshot_lines.
      by rewrite list_lookup_fmap, Hv.
Qed.

(** X12. [_write] walks the live store, not a copy: when a request is
    served after a write of the store has done [k] turns of its loop, and
    the write then runs to its end, the file holds the first [k] records as
    they were before the request and the others as the request left
    them. *)
Theorem write_overlapping_request (O : Oracle) (json_dumps : value → string)
    (r : request) (w : World) (k : nat) :
  Forall is_payment (DATA_CACHE w) →
  (k ≤ length (DATA_CACHE w))%nat →
  Nat.iter (S (length (DATA_CACHE w) - k))
    (write_step json_dumps (DATA_CACHE (serve O r w)))
    (Nat.iter (S k) (write_step json_dumps (DATA_CACHE w)) WReady) =
  WClosed (take k (snapshot_lines json_dumps (DATA_CACHE w)) ++
           drop k (snapshot_lines json_dumps (DATA_CACHE (serve O r w)))).
Proof.
  intros Hall Hk.
  destruct (serve_evolves O r w Hall) as (_ & Hev & _).
  pose proof (Forall2_length _ _ _ Hev) as Hlen.
  rewrite write_steps_open by done.
  rewrite Nat.iter_succ, write_steps_from by lia. simpl.
  rewrite lookup_ge_None_2 by lia. f_equal. f_equal.
  apply take_ge. rewrite length_drop. unfold snapshot_lines.
  rewrite length_map. lia.
Qed.

Lemma write_overlapping_request_witness :
  Nat.iter (S (length (DATA_CACHE sample_world) - 1))
    (write_step id_line
       (DATA_CACHE (serve eager (GetPayment "t3") sample_world)))
    (Nat.iter (S 1) (write_step id_line (DATA_CACHE sample_world)) WReady) =
  WClosed (take 1 (snapshot_lines id_line (DATA_CACHE sample_world)) ++
           drop 1 (snapshot_lines id_line
                     (DATA_CACHE (serve eager (GetPayment "t3")
                                    sample_world)))).
Proof.
  apply (write_overlapping_request eager id_line (GetPayment "t3")
           sample_world 1);
    [apply sample_cache_payments | simpl; lia].
Defined.

(** ** Pages side by side *)

(** X13. The pages tile the sequence they are cut from: for a limit of at
    least one, the slices that [get_payments] takes for the pages 1 to [m]
    of one sequence, put end to end, are its first [m * limit] places,
    nothing twice and nothing left out. *)
Theorem pages_tile (A : Type) (l : list A) (limit : Z) (m : nat) :
  (1 ≤ limit)%Z →
  concat (map (λ j, py_slice l ((Z.of_nat (S j) - 1) * limit)
                              (Z.of_nat (S j) * limit)) (seq 0 m))
    = take (m * Z.to_nat limit) l.
Proof.
  intros Hl. induction m as [|m IH]; [done|].
  rewrite seq_S, map_app, concat_app, IH. simpl.
  rewrite py_slice_page by lia. rewrite app_nil_r.
  replace (Z.to_nat ((Z.of_nat (S m) - 1) * limit))
    with (m * Z.to_nat limit)%nat by nia.
  rewrite take_take_drop. f_equal. lia.
Qed.

Lemma pages_tile_witness :
  concat (map (λ j, py_slice [10; 11; 12; 13; 14]
                      ((Z.of_nat (S j) - 1) * 2) (Z.of_nat (S j) * 2))
              (seq 0 2))
    = take (2 * Z.to_nat 2) [10; 11; 12; 13; 14].
Proof. apply (pages_tile nat [10; 11; 12; 13; 14] 2 2). lia. Defined.
